(** * dex-server: the MotherDuck gateway of [src/server.js]

    A shallow embedding of the Express application in [src/server.js]:
    the start-up routine [initializeMotherDuckConnection], the four
    [/api/md/*] handlers, the plain routes, the 404 handler and the
    generic error handler, together with the string primitives of
    JavaScript they rely on.

    Conventions.
    - A JavaScript string is a sequence of UTF-16 code units.  The
      development covers code units below 256 and writes them as [ascii];
      on that range [trim] and [toLowerCase] are given exactly as
      ECMAScript defines them.
    - The DuckDB driver, the console and the clock are external.  Every
      call to them is an event of a program tree ([Prog]); a theorem about
      a handler holds for every driver that may answer those events.
    - [res.json] serialises its argument and throws a [TypeError] on a
      BigInt, which the driver gives for BIGINT columns.  A callback that
      throws ends the request with [Thrown]: no response is sent.
    - Which route handles a request, and whether its path decodes at the
      layer of [app.use('*')], is decided by Express; both are parameters
      of the router. *)

From Stdlib Require Import String Ascii List Bool Arith ZArith Lia DecimalString.
Import ListNotations.
Open Scope string_scope.

(** ** JavaScript string primitives *)

Module JsString.

(** ECMAScript WhiteSpace and LineTerminator code units below 256:
    TAB, LF, VT, FF, CR, SPACE and NO-BREAK SPACE. *)
Definition isWhiteSpace (c : ascii) : bool :=
  let n := nat_of_ascii c in
  (((9 <=? n) && (n <=? 13)) || (n =? 32) || (n =? 160))%nat.

Fixpoint trimStart (s : string) : string :=
  match s with
  | String c s' => if isWhiteSpace c then trimStart s' else s
  | EmptyString => EmptyString
  end.

Fixpoint trimEnd (s : string) : string :=
  match s with
  | String c s' =>
      let t := trimEnd s' in
      if isWhiteSpace c && (t =? "") then "" else String c t
  | EmptyString => EmptyString
  end.

(** [String.prototype.trim] *)
Definition trim (s : string) : string := trimEnd (trimStart s).

(** Lower-case mapping of one code unit below 256: A-Z, and the Latin-1
    capitals U+00C0..U+00DE except the multiplication sign U+00D7. *)
Definition toLowerChar (c : ascii) : ascii :=
  let n := nat_of_ascii c in
  if (((65 <=? n) && (n <=? 90))
      || ((192 <=? n) && (n <=? 222) && negb (n =? 215)))%nat
  then ascii_of_nat (n + 32) else c.

(** [String.prototype.toLowerCase] *)
Fixpoint toLowerCase (s : string) : string :=
  match s with
  | String c s' => String (toLowerChar c) (toLowerCase s')
  | EmptyString => EmptyString
  end.

(** [String.prototype.startsWith] *)
Definition startsWith (s pat : string) : bool := prefix pat s.

(** [String.prototype.includes] *)
Fixpoint includes (s pat : string) : bool :=
  prefix pat s
  || match s with
     | String _ s' => includes s' pat
     | EmptyString => false
     end.

Fixpoint drop (n : nat) (s : string) : string :=
  match n, s with
  | S k, String _ s' => drop k s'
  | _, _ => s
  end.

(** The left-to-right scan shared by [replaceAll] and [split]: [skip]
    counts the code units of the current match still to be passed. *)
Fixpoint replaceAllFrom (pat rep : string) (skip : nat) (s : string) : string :=
  match s with
  | EmptyString => EmptyString
  | String c s' =>
      match skip with
      | S k => replaceAllFrom pat rep k s'
      | O =>
          if prefix pat s
          then rep ++ replaceAllFrom pat rep (String.length pat - 1) s'
          else String c (replaceAllFrom pat rep 0 s')
      end
  end.

Fixpoint intersperse (rep : string) (s : string) : string :=
  match s with
  | EmptyString => EmptyString
  | String c s' => String c (rep ++ intersperse rep s')
  end.

(** [String.prototype.replaceAll] with a string pattern: every
    non-overlapping occurrence, scanning from the left; the empty
    pattern matches between all code units. *)
Definition replaceAll (s pat rep : string) : string :=
  if pat =? "" then rep ++ intersperse rep s
  else replaceAllFrom pat rep 0 s.

Fixpoint splitFrom (sep : string) (skip : nat) (cur : string) (s : string)
  : list string :=
  match s with
  | EmptyString => [cur]
  | String c s' =>
      match skip with
      | S k => splitFrom sep k cur s'
      | O =>
          if prefix sep s
          then cur :: splitFrom sep (String.length sep - 1) "" s'
          else splitFrom sep 0 (cur ++ String c "") s'
      end
  end.

(** [String.prototype.split] with a string separator. *)
Definition split (s sep : string) : list string :=
  if sep =? "" then map (fun c => String c "") (list_ascii_of_string s)
  else splitFrom sep 0 "" s.

(** [Array.prototype.pop], as used on a fresh array: its last element,
    [undefined] ([None]) on the empty array. *)
Fixpoint pop (l : list string) : option string :=
  match l with
  | [] => None
  | [x] => Some x
  | _ :: l' => pop l'
  end.

End JsString.
Import JsString.

(** ** JavaScript values

    Plain data as [JSON.parse], the [qs] query parser and the driver's
    result rows produce it.  Numbers are kept as integers: the server
    never computes with them. *)

#[warnings="-register-all"]
Inductive Value : Type :=
| VUndefined
| VNull
| VBool (b : bool)
| VNum (n : Z)
| VStr (s : string)
| VArr (items : list Value)
| VObj (fields : list (string * Value))
| VBigInt (n : Z).   (* a BigInt, as the driver returns for BIGINT columns *)

Definition Row : Type := list (string * Value).
Definition Rows : Type := list Row.

(** The array of row objects handed to a driver callback. *)
Definition rowsValue (rows : Rows) : Value := VArr (map VObj rows).

(** ToBoolean *)
Definition truthy (v : Value) : bool :=
  match v with
  | VUndefined | VNull => false
  | VBool b => b
  | VNum n => negb (n =? 0)%Z
  | VStr s => negb (s =? "")
  | VArr _ | VObj _ => true
  | VBigInt n => negb (n =? 0)%Z
  end.

(** [typeof v] *)
Definition typeof (v : Value) : string :=
  match v with
  | VUndefined => "undefined"
  | VNull | VArr _ | VObj _ => "object"
  | VBool _ => "boolean"
  | VNum _ => "number"
  | VStr _ => "string"
  | VBigInt _ => "bigint"
  end.

(** [a || b] and [a ?? b] *)
Definition orJs (a b : Value) : Value := if truthy a then a else b.
Definition nullish (a b : Value) : Value :=
  match a with
  | VUndefined | VNull => b
  | _ => a
  end.

Fixpoint lookup (key : string) (fields : list (string * Value)) : Value :=
  match fields with
  | [] => VUndefined
  | (k, v) :: rest => if k =? key then v else lookup key rest
  end.

(** [o.key] on plain data, for the data keys the server reads ([sql],
    [schema], [includeViews], [current_database], [table_count]):
    an object yields its field, arrays and primitives have no such
    property. *)
Definition getProp (o : Value) (key : string) : Value :=
  match o with
  | VObj fields => lookup key fields
  | _ => VUndefined
  end.

(** [rows?.[0]?.key] on the rows of a driver callback. *)
Definition firstRowProp (rows : Rows) (key : string) : Value :=
  match rows with
  | [] => VUndefined
  | r :: _ => lookup key r
  end.

(** [o.key = v] on an object literal's fields. *)
Fixpoint setProp (key : string) (v : Value) (fields : list (string * Value))
  : list (string * Value) :=
  match fields with
  | [] => [(key, v)]
  | (k, x) :: rest =>
      if k =? key then (k, v) :: rest else (k, x) :: setProp key v rest
  end.

Definition numberToString (n : Z) : string :=
  DecimalString.NilZero.string_of_int (Z.to_int n).

(** [String(v)], which is also what a template literal applies:
    [Array.prototype.join] renders [null] and [undefined] elements as the
    empty string; a plain object renders as [[object Object]]. *)
Fixpoint toStringJS (v : Value) : string :=
  match v with
  | VUndefined => "undefined"
  | VNull => "null"
  | VBool true => "true"
  | VBool false => "false"
  | VNum n => numberToString n
  | VStr s => s
  | VArr items =>
      (fix join (l : list Value) : string :=
         match l with
         | [] => ""
         | x :: rest =>
             let sx := match x with
                       | VUndefined | VNull => ""
                       | _ => toStringJS x
                       end in
             match rest with
             | [] => sx
             | _ :: _ => sx ++ "," ++ join rest
             end
         end) items
  | VObj _ => "[object Object]"
  | VBigInt n => numberToString n
  end.

(** The string carried by a value whose [typeof] is ["string"]. *)
Definition stringOf (v : Value) : string :=
  match v with
  | VStr s => s
  | _ => ""
  end.

(** ** The outside world: driver, console *)

(** An [Error] object. *)
Record JsError : Type := mkError {
  errName : string;
  errMessage : string;
  errStack : string
}.

(** [Error.prototype.toString] *)
Definition errorToString (e : JsError) : string :=
  if errName e =? "" then errMessage e
  else if errMessage e =? "" then errName e
  else errName e ++ ": " ++ errMessage e.

(** [String(e.message || e)] *)
Definition errorText (e : JsError) : string :=
  if negb (errMessage e =? "") then errMessage e else errorToString e.

Inductive Database : Type := TheDatabase.
Inductive Connection : Type := TheConnection.

(** Calls that leave the program. *)
Inductive Call : Type :=
| NewDatabase (path : string)            (* new duckdb.Database(path) *)
| DbConnect                              (* db.connect() *)
| ConnRun (sql : string)                 (* conn.run(sql) *)
| ConnAll (sql : string)                 (* conn.all(sql, callback) *)
| ConsoleWarn (msg : string)
| ConsoleLog (msg : string)
| ConsoleError (msg : string) (e : option JsError).

(** What comes back.  For the calls of the start-up routine [Threw] is an
    exception and [Gave] a normal return (its rows unused); for
    [ConnAll] they are the two ways the callback is invoked,
    [callback(err)] and [callback(null, rows)].  The console's answer is
    ignored. *)
Inductive Reply : Type :=
| Threw (e : JsError)
| Gave (rows : Rows).

Definition isDriverCall (c : Call) : bool :=
  match c with
  | NewDatabase _ | DbConnect | ConnRun _ | ConnAll _ => true
  | ConsoleWarn _ | ConsoleLog _ | ConsoleError _ _ => false
  end.


(** Programs: trees of external calls. *)
Inductive Prog (A : Type) : Type :=
| Ret (a : A)
| Vis (c : Call) (k : Reply -> Prog A).
Arguments Ret {A} a.
Arguments Vis {A} c k.

(** The module-level variables of [server.js]. *)
Record Globals : Type := mkGlobals {
  motherDuckDb : option Database;
  motherDuckConnection : option Connection
}.

Definition initialGlobals : Globals :=
  {| motherDuckDb := None; motherDuckConnection := None |}.

Inductive Completion (A : Type) : Type :=
| Normal (a : A)
| Thrown (e : JsError).
Arguments Normal {A} a.
Arguments Thrown {A} e.

(** A JavaScript computation: reads and writes the globals, performs
    external calls, and completes normally or by an exception. *)
Definition Js (A : Type) : Type := Globals -> Prog (Completion A * Globals).

Module JsMonad.

Definition ret {A} (a : A) : Js A := fun g => Ret (Normal a, g).

Definition throw {A} (e : JsError) : Js A := fun g => Ret (Thrown e, g).

Fixpoint bindProg {A B} (p : Prog A) (f : A -> Prog B) : Prog B :=
  match p with
  | Ret a => f a
  | Vis c k => Vis c (fun r => bindProg (k r) f)
  end.

Definition bind {A B} (m : Js A) (f : A -> Js B) : Js B :=
  fun g =>
    bindProg (m g)
      (fun '(c, g') =>
         match c with
         | Normal a => f a g'
         | Thrown e => Ret (Thrown e, g')
         end).

(** [try { body } catch (error) { handler }] *)
Definition tryCatch {A} (body : Js A) (handler : JsError -> Js A) : Js A :=
  fun g =>
    bindProg (body g)
      (fun '(c, g') =>
         match c with
         | Normal a => Ret (Normal a, g')
         | Thrown e => handler e g'
         end).

Definition getGlobals : Js Globals := fun g => Ret (Normal g, g).
Definition putGlobals (g' : Globals) : Js unit := fun _ => Ret (Normal tt, g').

(** One external call, its answer returned as a value. *)
Definition call (c : Call) : Js Reply := fun g => Vis c (fun r => Ret (Normal r, g)).

End JsMonad.
Import JsMonad.

Declare Scope js_scope.
Delimit Scope js_scope with js.
Notation "x <- m ;; k" := (bind m (fun x => k))
  (at level 61, m at next level, right associativity) : js_scope.
Notation "m ;; k" := (bind m (fun _ => k))
  (at level 61, right associativity) : js_scope.
Open Scope js_scope.

(** A call that throws on failure. *)
Definition invoke (c : Call) : Js unit :=
  r <- call c ;;
  match r with
  | Threw e => throw e
  | Gave _ => ret tt
  end.

Definition console (c : Call) : Js unit := _ <- call c ;; ret tt.

Definition newDatabase (path : string) : Js Database :=
  invoke (NewDatabase path) ;; ret TheDatabase.
Definition connect (db : Database) : Js Connection :=
  invoke DbConnect ;; ret TheConnection.
Definition connRun (conn : Connection) (sql : string) : Js unit :=
  invoke (ConnRun sql).
(** [conn.all(sql, (err, rows) => ...)]: the driver reports through the
    callback, so the answer is what the callback receives and the call
    itself does not throw. *)
Definition connAll (conn : Connection) (sql : string) : Js Reply :=
  call (ConnAll sql).

Definition setMotherDuckDb (db : Database) : Js unit :=
  g <- getGlobals ;;
  putGlobals {| motherDuckDb := Some db;
                motherDuckConnection := motherDuckConnection g |}.
Definition setMotherDuckConnection (conn : Connection) : Js unit :=
  g <- getGlobals ;;
  putGlobals {| motherDuckDb := motherDuckDb g;
                motherDuckConnection := Some conn |}.
Definition getMotherDuckConnection : Js (option Connection) :=
  g <- getGlobals ;; ret (motherDuckConnection g).

(** ** The server *)

(** [process.env]: a variable is a string or [undefined]. *)
Record Env : Type := mkEnv {
  MOTHERDUCK_TOKEN : option string;
  MOTHERDUCK_DATABASE : option string;
  NODE_ENV : option string
}.

Definition envValue (x : option string) : Value :=
  match x with
  | Some s => VStr s
  | None => VUndefined
  end.

Definition attachStatement (safeDb safeToken : string) : string :=
  "ATTACH '" ++ safeDb ++ "' (TOKEN '" ++ safeToken ++ "');".

(** [safeDb.includes('md:') ? safeDb.split('md:').pop() : safeDb] *)
Definition dbNameOf (safeDb : string) : string :=
  if includes safeDb "md:"
  then match pop (split safeDb "md:") with
       | Some d => d
       | None => "undefined"
       end
  else safeDb.

Definition useStatement (dbName : string) : string := "USE " ++ dbName ++ ";".

Definition initializeMotherDuckConnection (env : Env) : Js unit :=
  let motherDuckToken := envValue (MOTHERDUCK_TOKEN env) in
  let motherDuckDatabase :=
    orJs (envValue (MOTHERDUCK_DATABASE env)) (VStr "md:default") in
  if negb (truthy motherDuckToken) then
    console (ConsoleWarn
      "MotherDuck token not set. Set MOTHERDUCK_TOKEN to enable MotherDuck endpoints.")
  else
    tryCatch
      (db <- newDatabase ":memory:" ;;
       setMotherDuckDb db ;;
       conn <- connect db ;;
       let safeToken := replaceAll (toStringJS motherDuckToken) "'" "''" in
       let safeDb := replaceAll (toStringJS motherDuckDatabase) "'" "''" in
       connRun conn "INSTALL motherduck;" ;;
       connRun conn "LOAD motherduck;" ;;
       connRun conn (attachStatement safeDb safeToken) ;;
       let dbName := dbNameOf safeDb in
       connRun conn (useStatement dbName) ;;
       setMotherDuckConnection conn ;;
       console (ConsoleLog "✅ MotherDuck connection initialized"))
      (fun error =>
         console (ConsoleError "Failed to initialize MotherDuck connection:"
                               (Some error))).

(** *** Requests and responses *)

Inductive Endpoint : Type :=
| Tables        (* GET  /api/md/tables *)
| Diagnostics   (* GET  /api/md/diagnostics *)
| Ping          (* GET  /api/md/ping *)
| Query.        (* POST /api/md/query *)

Record Request : Type := mkRequest {
  endpoint : Endpoint;
  query : list (string * Value);   (* req.query *)
  body : Value                     (* req.body *)
}.

Record Response : Type := mkResponse {
  status : nat;
  payload : Value
}.

(** How a handler finishes: it sends a response, or hands an error to
    [next]. *)
Inductive Outcome : Type :=
| Responded (r : Response)
| Next (err : JsError).

(** [res.json(v)] and [res.status(n).json(v)] *)
Definition json (v : Value) : Outcome := Responded {| status := 200; payload := v |}.
Definition statusJson (n : nat) (v : Value) : Outcome :=
  Responded {| status := n; payload := v |}.

(** Whether [JSON.stringify] accepts a value: it throws a [TypeError] on
    a BigInt, wherever it sits in the value. *)
Fixpoint serialisable (v : Value) : bool :=
  match v with
  | VBigInt _ => false
  | VArr items => forallb serialisable items
  | VObj fields => forallb (fun kv => let '(_, x) := kv in serialisable x) fields
  | _ => true
  end.

Definition bigIntTypeError : JsError :=
  {| errName := "TypeError";
     errMessage := "Do not know how to serialize a BigInt";
     errStack := "TypeError: Do not know how to serialize a BigInt" |}.

(** [res.json(v)] with its serialisation: the response is sent when [v]
    can be serialised, and the call throws when it cannot. *)
Definition sendJson (v : Value) : Js Outcome :=
  if serialisable v then ret (json v) else throw bigIntTypeError.

(** What the synchronous part of a handler leaves behind: a finished
    outcome, or the driver's reply awaiting its callback.  The callback
    runs after the handler's [try] block has been left, so what it
    throws is not caught there. *)
Inductive Pending : Type :=
| Done (o : Outcome)
| Callback (r : Reply).

Definition notConfigured : Outcome :=
  statusJson 503 (VObj [("error", VStr "MotherDuck not configured. Set MOTHERDUCK_TOKEN.")]).

(** *** GET /api/md/tables

    The handlers follow the source statement by statement.  A callback
    passed to [conn.all] becomes the continuation of the call; [return
    res.status(n).json(v)] and [next(err)] become the handler's
    [Outcome]. *)

Definition schemaFilterOf (schema : Value) : string :=
  if truthy schema
  then "AND table_schema = '" ++ toStringJS schema ++ "'"
  else "".

Definition includeViewsOf (includeViews : Value) : bool :=
  toLowerCase (toStringJS (orJs includeViews (VStr ""))) =? "true".

Definition typeFilterOf (includeViews : bool) : string :=
  if includeViews then "IN ('BASE TABLE','VIEW')" else "= 'BASE TABLE'".

Definition tablesSql (typeFilter schemaFilter : string) : string :=
  "
      SELECT table_catalog, table_schema, table_name, table_type
      FROM information_schema.tables
      WHERE table_type " ++ typeFilter ++ "
        AND table_schema NOT IN ('information_schema', 'pg_catalog')
        " ++ schemaFilter ++ "
      ORDER BY table_catalog, table_schema, table_name
    ".

Definition tablesQuery (q : list (string * Value)) : string :=
  let schemaFilter := schemaFilterOf (lookup "schema" q) in
  let includeViews := includeViewsOf (lookup "includeViews" q) in
  let typeFilter := typeFilterOf includeViews in
  tablesSql typeFilter schemaFilter.

Definition tablesHandler (req : Request) : Js Outcome :=
  p <- tryCatch
         (mdc <- getMotherDuckConnection ;;
          match mdc with
          | None => ret (Done notConfigured)
          | Some conn =>
              let sql := tablesQuery (query req) in
              r <- connAll conn sql ;;
              ret (Callback r)
          end)
         (fun error => ret (Done (Next error))) ;;
  match p with
  | Done o => ret o
  | Callback (Threw err) => ret (Next err)
  | Callback (Gave rows) => sendJson (VObj [("tables", rowsValue rows)])
  end.

(** *** GET /api/md/diagnostics *)

Record DiagResult : Type := mkDiag {
  database_list : Value;
  current_database : Value;
  schemas : Value;
  table_count : Value;
  errors : list (string * Value)
}.

Definition diagValue (d : DiagResult) : Value :=
  VObj [("database_list", database_list d);
        ("current_database", current_database d);
        ("schemas", schemas d);
        ("table_count", table_count d);
        ("errors", VObj (errors d))].

Definition diagInitial : DiagResult :=
  {| database_list := VNull; current_database := VNull; schemas := VNull;
     table_count := VNull; errors := [] |}.

Definition recordError (key : string) (e : JsError) (d : DiagResult) : DiagResult :=
  {| database_list := database_list d; current_database := current_database d;
     schemas := schemas d; table_count := table_count d;
     errors := setProp key (VStr (errorText e)) (errors d) |}.

Definition diagStep1 (r : Reply) (d : DiagResult) : DiagResult :=
  match r with
  | Threw e1 => recordError "database_list" e1 d
  | Gave dbList =>
      {| database_list := rowsValue dbList; current_database := current_database d;
         schemas := schemas d; table_count := table_count d; errors := errors d |}
  end.

Definition diagStep2 (r : Reply) (d : DiagResult) : DiagResult :=
  match r with
  | Threw e2 => recordError "current_database" e2 d
  | Gave currentDb =>
      {| database_list := database_list d;
         current_database := orJs (firstRowProp currentDb "current_database") VNull;
         schemas := schemas d; table_count := table_count d; errors := errors d |}
  end.

Definition diagStep3 (r : Reply) (d : DiagResult) : DiagResult :=
  match r with
  | Threw e3 => recordError "schemata" e3 d
  | Gave rows =>
      {| database_list := database_list d; current_database := current_database d;
         schemas := rowsValue rows; table_count := table_count d; errors := errors d |}
  end.

Definition diagStep4 (r : Reply) (d : DiagResult) : DiagResult :=
  match r with
  | Threw e4 => recordError "table_count" e4 d
  | Gave count =>
      {| database_list := database_list d; current_database := current_database d;
         schemas := schemas d;
         table_count := nullish (firstRowProp count "table_count") VNull;
         errors := errors d |}
  end.

Definition diagQuery1 : string := "PRAGMA database_list;".
Definition diagQuery2 : string := "SELECT current_database() AS current_database;".
Definition diagQuery3 : string :=
  "SELECT schema_name FROM information_schema.schemata ORDER BY schema_name;".
Definition diagQuery4 : string :=
  "SELECT COUNT(*) AS table_count FROM information_schema.tables;".

Definition diagnosticsHandler (req : Request) : Js Outcome :=
  mdc <- getMotherDuckConnection ;;
  match mdc with
  | None => ret notConfigured
  | Some conn =>
      let result := diagInitial in
      r1 <- connAll conn diagQuery1 ;;
      let result := diagStep1 r1 result in
      r2 <- connAll conn diagQuery2 ;;
      let result := diagStep2 r2 result in
      r3 <- connAll conn diagQuery3 ;;
      let result := diagStep3 r3 result in
      r4 <- connAll conn diagQuery4 ;;
      let result := diagStep4 r4 result in
      sendJson (diagValue result)
  end.

(** *** GET /api/md/ping *)

Definition pingHandler (req : Request) : Js Outcome :=
  mdc <- getMotherDuckConnection ;;
  match mdc with
  | None => ret notConfigured
  | Some conn =>
      r <- connAll conn "SELECT 1 AS ok;" ;;
      match r with
      | Threw err => ret (Next err)
      | Gave rows => sendJson (VObj [("rows", rowsValue rows)])
      end
  end.

(** *** POST /api/md/query *)

Definition missingSql : Outcome :=
  statusJson 400 (VObj [("error", VStr "Missing SQL in body { sql }")]).
Definition onlySelect : Outcome :=
  statusJson 400 (VObj [("error", VStr "Only SELECT queries are allowed.")]).

(** [const { sql } = req.body || {}] *)
Definition sqlField (req : Request) : Value :=
  getProp (orJs (body req) (VObj [])) "sql".

Definition queryHandler (req : Request) : Js Outcome :=
  p <- tryCatch
         (mdc <- getMotherDuckConnection ;;
          match mdc with
          | None => ret (Done notConfigured)
          | Some conn =>
              let sql := sqlField req in
              if negb (truthy sql) || negb (typeof sql =? "string") then
                ret (Done missingSql)
              else
                let trimmed := toLowerCase (trim (stringOf sql)) in
                if negb (startsWith trimmed "select") then
                  ret (Done onlySelect)
                else
                  r <- connAll conn (stringOf sql) ;;
                  ret (Callback r)
          end)
         (fun error => ret (Done (Next error))) ;;
  match p with
  | Done o => ret o
  | Callback (Threw err) => ret (Next err)
  | Callback (Gave rows) => sendJson (VObj [("rows", rowsValue rows)])
  end.

(** *** The generic error handler and the application *)

(** [process.env.NODE_ENV === 'production'] *)
Definition isProduction (env : Env) : bool :=
  match NODE_ENV env with
  | Some mode => mode =? "production"
  | None => false
  end.

Definition errorMessageFor (env : Env) (err : JsError) : string :=
  if isProduction env then "Internal server error" else errMessage err.

(** [now] is [new Date().toISOString()]. *)
Definition errorHandler (env : Env) (now : string) (err : JsError) : Js Response :=
  console (ConsoleError (errStack err) None) ;;
  ret {| status := 500;
         payload := VObj [("error", VStr "Something went wrong!");
                          ("message", VStr (errorMessageFor env err));
                          ("timestamp", VStr now)] |}.

Definition handlerOf (e : Endpoint) : Request -> Js Outcome :=
  match e with
  | Tables => tablesHandler
  | Diagnostics => diagnosticsHandler
  | Ping => pingHandler
  | Query => queryHandler
  end.

(** One request through its route and, if the handler calls [next(err)],
    through the error handler. *)
Definition app (env : Env) (now : string) (req : Request) : Js Response :=
  out <- handlerOf (endpoint req) req ;;
  match out with
  | Responded r => ret r
  | Next err => errorHandler env now err
  end.

(** ** Running against a driver *)

Definition Transcript : Type := list (Call * Reply).

Section World.

(** A driver is any state machine answering the calls. *)
Variable W : Type.
Variable answer : W -> Call -> Reply * W.

Fixpoint runProg {A} (p : Prog A) (w : W) : A * Transcript * W :=
  match p with
  | Ret a => (a, [], w)
  | Vis c k =>
      let '(r, w1) := answer w c in
      let '(a, t, w2) := runProg (k r) w1 in
      (a, (c, r) :: t, w2)
  end.

Definition run {A} (m : Js A) (g : Globals) (w : W)
  : Completion A * Globals * Transcript * W :=
  let '(cg, t, w') := runProg (m g) w in (cg, t, w').

(** A sequence of requests, each with the clock reading at its arrival,
    served one after the other on the same globals and driver. *)
Fixpoint serve (env : Env) (reqs : list (string * Request)) (g : Globals) (w : W)
  : list (Completion Response * Transcript) * Globals * W :=
  match reqs with
  | [] => ([], g, w)
  | (now, req) :: rest =>
      let '(c, g1, t, w1) := run (app env now req) g w in
      let '(out, g2, w2) := serve env rest g1 w1 in
      ((c, t) :: out, g2, w2)
  end.

End World.

Arguments runProg {W} answer {A} p w.
Arguments run {W} answer {A} m g w.
Arguments serve {W} answer env reqs g w.

(** The calls of a transcript that reach the database driver. *)
Definition driverCalls (t : Transcript) : list Call :=
  filter isDriverCall (map fst t).

(** ** The remaining routes and the route table *)

(** A request as it reaches the routes, after the body and query
    parsers. *)
Record HttpRequest : Type := mkHttp {
  method : string;                    (* req.method *)
  originalUrl : string;               (* req.originalUrl *)
  reqQuery : list (string * Value);   (* req.query *)
  reqBody : Value                     (* req.body *)
}.

(** [app.get('/')]; [now] is [new Date().toISOString()]. *)
Definition rootHandler (now : string) : Js Outcome :=
  ret (json (VObj [("message", VStr "Welcome to Dex Server API");
                   ("status", VStr "running");
                   ("timestamp", VStr now);
                   ("version", VStr "1.0.0")])).

(** [app.get('/api/hello')] *)
Definition helloHandler (now : string) : Js Outcome :=
  ret (json (VObj [("message", VStr "Hello World!");
                   ("status", VStr "success");
                   ("timestamp", VStr now)])).

(** [app.get('/api/health')]; [uptime] is [process.uptime()]. *)
Definition healthHandler (uptime : Value) (now : string) : Js Outcome :=
  ret (json (VObj [("status", VStr "healthy");
                   ("uptime", uptime);
                   ("timestamp", VStr now)])).

(** [app.use('*')], the 404 handler. *)
Definition notFoundHandler (now : string) (req : HttpRequest) : Js Outcome :=
  ret (statusJson 404
         (VObj [("error", VStr "Route not found");
                ("message", VStr ("Cannot " ++ method req ++ " " ++ originalUrl req));
                ("timestamp", VStr now)])).

Inductive Target : Type :=
| ToRoot
| ToHello
| ToHealth
| ToMd (e : Endpoint).

(** The routes in the order [server.js] registers them: verb, path,
    handler. *)
Definition routes : list (string * string * Target) :=
  [("GET", "/", ToRoot);
   ("GET", "/api/hello", ToHello);
   ("GET", "/api/health", ToHealth);
   ("GET", "/api/md/tables", ToMd Tables);
   ("GET", "/api/md/diagnostics", ToMd Diagnostics);
   ("GET", "/api/md/ping", ToMd Ping);
   ("POST", "/api/md/query", ToMd Query)].

Section Router.

(** Express decides whether a route registered for a verb and a path
    handles a request; that decision is a parameter here. *)
Variable handles : string -> string -> HttpRequest -> bool.

(** The layer of [app.use('*')] decodes the request path with
    [decodeURIComponent] before its handler runs, and that throws on a
    malformed escape such as [/%E0%A4%A]; Express then skips the handler
    and passes the error on.  Whether the decoding fails, and with which
    error, is a parameter here.  The seven routes have no path parameter
    and decode nothing. *)
Variable decodeFails : HttpRequest -> option JsError.

Fixpoint firstRoute (rs : list (string * string * Target)) (req : HttpRequest)
  : option Target :=
  match rs with
  | [] => None
  | (verb, path, target) :: rest =>
      if handles verb path req then Some target else firstRoute rest req
  end.

(** The handler a request runs: that of the first route handling it;
    when none does, the 404 handler, unless the path fails to decode and
    the error goes to [next]. *)
Definition routeHandler (now : string) (uptime : Value) (req : HttpRequest)
  : Js Outcome :=
  match firstRoute routes req with
  | Some ToRoot => rootHandler now
  | Some ToHello => helloHandler now
  | Some ToHealth => healthHandler uptime now
  | Some (ToMd e) =>
      handlerOf e {| endpoint := e; query := reqQuery req; body := reqBody req |}
  | None =>
      match decodeFails req with
      | Some err => ret (Next err)
      | None => notFoundHandler now req
      end
  end.

(** One request through the routes and, on [next(err)], the error
    handler. *)
Definition server (env : Env) (now : string) (uptime : Value)
           (req : HttpRequest) : Js Response :=
  out <- routeHandler now uptime req ;;
  match out with
  | Responded r => ret r
  | Next err => errorHandler env now err
  end.

End Router.

(** The shape of every run of a MotherDuck handler: it leaves the
    globals alone, its exchanges with the outside are queries through
    [conn.all] only, and it completes normally unless [res.json] throws
    on what a query gave. *)
Inductive HandlerShape (e : Endpoint) (g : Globals)
  : Completion Outcome -> Transcript -> Prop :=
| ShapeUnavailable :
    motherDuckConnection g = None ->
    HandlerShape e g (Normal notConfigured) []
| ShapeRejected (r : Response) :
    motherDuckConnection g <> None -> e = Query -> status r = 400 ->
    HandlerShape e g (Normal (Responded r)) []
| ShapeAnswered (v : Value) (q : string) (rows : Rows) :
    motherDuckConnection g <> None -> e <> Diagnostics ->
    serialisable v = true ->
    HandlerShape e g (Normal (json v)) [(ConnAll q, Gave rows)]
| ShapeUnsent (q : string) (rows : Rows) :
    motherDuckConnection g <> None -> e <> Diagnostics ->
    serialisable (rowsValue rows) = false ->
    HandlerShape e g (Thrown bigIntTypeError) [(ConnAll q, Gave rows)]
| ShapeFailed (q : string) (err : JsError) :
    motherDuckConnection g <> None -> e <> Diagnostics ->
    HandlerShape e g (Normal (Next err)) [(ConnAll q, Threw err)]
| ShapeReport (v : Value) (q1 q2 q3 q4 : string) (r1 r2 r3 r4 : Reply) :
    motherDuckConnection g <> None -> e = Diagnostics ->
    serialisable v = true ->
    HandlerShape e g (Normal (json v))
      [(ConnAll q1, r1); (ConnAll q2, r2); (ConnAll q3, r3); (ConnAll q4, r4)]
| ShapeNoReport (q1 q2 q3 q4 : string) (r1 r2 r3 r4 : Reply) :
    motherDuckConnection g <> None -> e = Diagnostics ->
    HandlerShape e g (Thrown bigIntTypeError)
      [(ConnAll q1, r1); (ConnAll q2, r2); (ConnAll q3, r3); (ConnAll q4, r4)].

(** What a route's handler may do, by the target the request is routed
    to. *)
Definition RouteShape (target : option Target) (undecoded : option JsError)
           (now : string) (uptime : Value)
           (req : HttpRequest) (g : Globals) (c : Completion Outcome)
           (t : Transcript)
  : Prop :=
  match target with
  | Some (ToMd e) => HandlerShape e g c t
  | Some ToRoot =>
      t = [] /\
      c = Normal (json (VObj [("message", VStr "Welcome to Dex Server API");
                        ("status", VStr "running");
                        ("timestamp", VStr now);
                        ("version", VStr "1.0.0")]))
  | Some ToHello =>
      t = [] /\
      c = Normal (json (VObj [("message", VStr "Hello World!");
                              ("status", VStr "success");
                              ("timestamp", VStr now)]))
  | Some ToHealth =>
      t = [] /\
      c = Normal (json (VObj [("status", VStr "healthy");
                              ("uptime", uptime);
                              ("timestamp", VStr now)]))
  | None =>
      t = [] /\
      c = Normal
            match undecoded with
            | Some err => Next err
            | None =>
                statusJson 404
                  (VObj [("error", VStr "Route not found");
                         ("message",
                          VStr ("Cannot " ++ method req ++ " " ++ originalUrl req));
                         ("timestamp", VStr now)])
            end
  end.

Section ServeHttp.

Variable handles : string -> string -> HttpRequest -> bool.
Variable decodeFails : HttpRequest -> option JsError.
Variable W : Type.
Variable answer : W -> Call -> Reply * W.

(** A sequence of requests through the routes, each with the clock and
    uptime readings at its arrival. *)
Fixpoint serveHttp (env : Env) (reqs : list (string * Value * HttpRequest))
         (g : Globals) (w : W)
  : list (Completion Response * Transcript) * Globals * W :=
  match reqs with
  | [] => ([], g, w)
  | (now, uptime, req) :: rest =>
      let '(c, g1, t, w1) :=
        run answer (server handles decodeFails env now uptime req) g w in
      let '(out, g2, w2) := serveHttp env rest g1 w1 in
      ((c, t) :: out, g2, w2)
  end.

End ServeHttp.

Definition isThrew (r : Reply) : bool :=
  match r with
  | Threw _ => true
  | Gave _ => false
  end.

(** A transcript that follows a sequence of driver calls as start-up
    does: the calls are made in order while they return; after the first
    one that throws nothing follows but the log of that error; after the
    last one the success is logged. *)
Fixpoint followsSequence (seq : list Call) (t : Transcript) {struct t} : Prop :=
  match t with
  | [] => False
  | (c', r) :: t' =>
      match seq with
      | [] => t' = [] /\ c' = ConsoleLog "✅ MotherDuck connection initialized"
      | c :: seq' =>
          c' = c /\
          match r with
          | Gave _ => followsSequence seq' t'
          | Threw e =>
              exists r',
                t' = [(ConsoleError "Failed to initialize MotherDuck connection:"
                                    (Some e), r')]
          end
      end
  end.

(** Whether some call to the driver threw. *)
Definition threwIn (t : Transcript) : bool :=
  existsb (fun x => isDriverCall (fst x) && isThrew (snd x)) t.

(** A text made of white space only. *)
Fixpoint allWhiteSpace (s : string) : bool :=
  match s with
  | EmptyString => true
  | String c s' => isWhiteSpace c && allWhiteSpace s'
  end.

Definition isConnAll (c : Call) : bool :=
  match c with
  | ConnAll _ => true
  | _ => false
  end.

(** The exchanges of a transcript with the database driver. *)
Definition driverPart (t : Transcript) : Transcript :=
  filter (fun x => isDriverCall (fst x)) t.

(** ** Notions used to state the properties *)

(** The answer of the unconfigured server. *)
Definition unavailable : Response :=
  {| status := 503;
     payload := VObj [("error", VStr "MotherDuck not configured. Set MOTHERDUCK_TOKEN.")] |}.

(** A request answered 503 with no call made. *)
Definition answered503 (x : Completion Response * Transcript) : Prop :=
  snd x = [] /\ exists r, fst x = Normal r /\ status r = 503.

(** Some call to the driver ended in an exception. *)
Definition someDriverCallThrew (t : Transcript) : Prop :=
  exists c e, In (c, Threw e) t /\ isDriverCall c = true.

Definition transcriptOf {A W} (x : Completion A * Globals * Transcript * W)
  : Transcript := snd (fst x).
Definition globalsOf {A W} (x : Completion A * Globals * Transcript * W)
  : Globals := snd (fst (fst x)).

(** The catalog identifier start-up works with:
    [process.env.MOTHERDUCK_DATABASE || 'md:default']. *)
Definition identifierOf (env : Env) : string :=
  toStringJS (orJs (envValue (MOTHERDUCK_DATABASE env)) (VStr "md:default")).

Definition tokenOf (env : Env) : string :=
  toStringJS (envValue (MOTHERDUCK_TOKEN env)).

(** The driver calls of a complete start-up, in order. *)
Definition attachSequence (env : Env) : list Call :=
  let safeToken := replaceAll (tokenOf env) "'" "''" in
  let safeDb := replaceAll (identifierOf env) "'" "''" in
  [NewDatabase ":memory:"; DbConnect;
   ConnRun "INSTALL motherduck;"; ConnRun "LOAD motherduck;";
   ConnRun (attachStatement safeDb safeToken);
   ConnRun (useStatement (dbNameOf safeDb))].

(** What one sub-query contributes to [errors]. *)
Definition errorEntry (key : string) (r : Reply) : list (string * Value) :=
  match r with
  | Threw e => [(key, VStr (errorText e))]
  | Gave _ => []
  end.

(** What one sub-query contributes to its own field. *)
Definition fieldOf (r : Reply) (f : Rows -> Value) : Value :=
  match r with
  | Threw _ => VNull
  | Gave rows => f rows
  end.

(** The report of the diagnostics endpoint, from the answers to its four
    sub-queries. *)
Definition diagReport (r1 r2 r3 r4 : Reply) : Value :=
  VObj [("database_list", fieldOf r1 rowsValue);
        ("current_database",
         fieldOf r2 (fun rows => orJs (firstRowProp rows "current_database") VNull));
        ("schemas", fieldOf r3 rowsValue);
        ("table_count",
         fieldOf r4 (fun rows => nullish (firstRowProp rows "table_count") VNull));
        ("errors",
         VObj (errorEntry "database_list" r1
               ++ errorEntry "current_database" r2
               ++ errorEntry "schemata" r3
               ++ errorEntry "table_count" r4)%list)].
Arguments diagReport : simpl never.

(** How [res.json(v)] completes, for the handler and for the request: the
    200 response carrying [v], or the [TypeError] of the serialiser. *)
Definition sendJsonResult (v : Value) : Completion Outcome :=
  if serialisable v then Normal (json v) else Thrown bigIntTypeError.
Definition sentResponse (v : Value) : Completion Response :=
  if serialisable v
  then Normal {| status := 200; payload := v |}
  else Thrown bigIntTypeError.

(** The status of the response a request got, if it got one. *)
Definition statusOf (c : Completion Response) : option nat :=
  match c with
  | Normal r => Some (status r)
  | Thrown _ => None
  end.

(** What the callback of a relaying route does with the driver's reply:
    [next(err)], or [res.json] of the rows under [key]. *)
Definition relayed (key : string) (r : Reply) : Completion Outcome :=
  match r with
  | Threw err => Normal (Next err)
  | Gave rows => sendJsonResult (VObj [(key, rowsValue rows)])
  end.

(** How the engine reads a string literal, given the text after its
    opening quote: the characters up to the first quote that is not
    doubled, a doubled quote standing for one quote.  The result is the
    literal's value and the text after the closing quote; [None] when the
    literal is not closed. *)
Fixpoint readLiteral (s : string) : option (string * string) :=
  match s with
  | EmptyString => None
  | String c s' =>
      if (c =? "'")%char then
        match s' with
        | String c' s'' =>
            if (c' =? "'")%char then
              match readLiteral s'' with
              | Some (v, rest) => Some (String "'" v, rest)
              | None => None
              end
            else Some ("", s')
        | EmptyString => Some ("", "")
        end
      else
        match readLiteral s' with
        | Some (v, rest) => Some (String c v, rest)
        | None => None
        end
  end.



(** Modelled on the claim's words: the text after the last occurrence of
    [pat], if there is one. *)
Fixpoint afterLast (pat s : string) : option string :=
  match s with
  | EmptyString => None
  | String _ s' =>
      match afterLast pat s' with
      | Some d => Some d
      | None => if prefix pat s then Some (drop (String.length pat) s) else None
      end
  end.

(** Modelled on the claim's words: the database name as "the text after
    the last md: prefix when one is present, otherwise the identifier
    itself". *)
Definition claimedDbName (identifier : string) : string :=
  match afterLast "md:" identifier with
  | Some d => d
  | None => identifier
  end.


(** ** A reading of the catalog query

    The engine is outside the program.  To say which rows of the catalog
    a query text selects, the text is read here the way SQL reads it:
    words, string literals (a doubled quote standing for one quote) and
    signs; a condition that is a disjunction of conjunctions, [AND]
    binding tighter than [OR]; each conjunct the comparison of a column
    with a literal, or its membership in a list of literals.  A text
    outside this fragment has no reading. *)




























(** ** Sample inputs *)

(** A scripted driver: it answers the calls with the listed replies in
    turn, and succeeds with no rows once the script is used up. *)
Definition scripted (w : list Reply) (c : Call) : Reply * list Reply :=
  match w with
  | [] => (Gave [], [])
  | r :: w' => (r, w')
  end.

Definition configured : Globals :=
  {| motherDuckDb := Some TheDatabase; motherDuckConnection := Some TheConnection |}.

Definition sampleError : JsError :=
  {| errName := "Error"; errMessage := "Catalog Error: no such table";
     errStack := "Error: Catalog Error: no such table" |}.

Definition dropRequest : Request :=
  {| endpoint := Query; query := [];
     body := VObj [("sql", VStr "drop table x")] |}.

Definition selectRequest : Request :=
  {| endpoint := Query; query := [];
     body := VObj [("sql", VStr "  SELECT 1 AS ok")] |}.

Definition okRows : Rows := [[("ok", VNum 1)]].

Definition attachFails : list Reply :=
  [Gave []; Gave []; Gave []; Gave []; Threw sampleError].

Definition diagnosticsRequest : Request :=
  {| endpoint := Diagnostics; query := []; body := VUndefined |}.

Definition quotedEnv : Env :=
  {| MOTHERDUCK_TOKEN := Some "to'k"; MOTHERDUCK_DATABASE := Some "md:a'b";
     NODE_ENV := None |}.








(** A router that compares verb and URL literally. *)
Definition literalRoute (verb path : string) (req : HttpRequest) : bool :=
  (method req =? verb) && (originalUrl req =? path).

(** The error of Express for a path it cannot decode. *)
Definition uriError (path : string) : JsError :=
  {| errName := "URIError";
     errMessage := "Failed to decode param '" ++ path ++ "'";
     errStack := "URIError: Failed to decode param '" ++ path ++ "'" |}.

(** A decoder that fails on the one malformed path of the samples. *)
Definition samplePaths (req : HttpRequest) : option JsError :=
  if originalUrl req =? "/%E0%A4%A"
  then Some (uriError (originalUrl req))
  else None.

Definition httpGet (url : string) : HttpRequest :=
  {| method := "GET"; originalUrl := url; reqQuery := []; reqBody := VUndefined |}.

Definition httpPostQuery (sql : Value) : HttpRequest :=
  {| method := "POST"; originalUrl := "/api/md/query"; reqQuery := [];
     reqBody := VObj [("sql", sql)] |}.

Definition tokenEnv : Env :=
  {| MOTHERDUCK_TOKEN := Some "tok"; MOTHERDUCK_DATABASE := None; NODE_ENV := None |}.

Definition emptyTokenEnv : Env :=
  {| MOTHERDUCK_TOKEN := Some ""; MOTHERDUCK_DATABASE := None; NODE_ENV := None |}.

Definition bareMdEnv : Env :=
  {| MOTHERDUCK_TOKEN := Some "tok"; MOTHERDUCK_DATABASE := Some "md:";
     NODE_ENV := None |}.

Definition stackedRequest : Request :=
  {| endpoint := Query; query := [];
     body := VObj [("sql", VStr "  SeLeCt 1; DROP TABLE x")] |}.

Definition withRequest : Request :=
  {| endpoint := Query; query := [];
     body := VObj [("sql", VStr " WITH t AS (SELECT 1) SELECT * FROM t")] |}.

Definition noSqlRequest : Request :=
  {| endpoint := Query; query := []; body := VObj [("query", VStr "select 1")] |}.

Definition countZero : Rows := [[("table_count", VNum 0)]].

(** The table count as the engine returns a row count: a BigInt. *)
Definition bigCount : Rows := [[("table_count", VBigInt 5)]].




(** * Properties *)

(** ** The primitives on examples *)

Example trim_ex : trim (String (ascii_of_nat 10) "  SeLeCT 1 ") = "SeLeCT 1".
Proof. reflexivity. Qed.
Example lower_ex : toLowerCase "SeLeCT 1" = "select 1".
Proof. reflexivity. Qed.
Example replace_ex : replaceAll "a'b''c" "'" "''" = "a''b''''c".
Proof. reflexivity. Qed.
Example split_ex : split "md:a md:b" "md:" = [""; "a "; "b"].
Proof. reflexivity. Qed.
Example split_ex2 : split "" "md:" = [""].
Proof. reflexivity. Qed.
Example replace_ex2 : replaceAll "abc" "" "-" = "-a-b-c-".
Proof. reflexivity. Qed.
Example replace_ex3 : replaceAll "aaa" "aa" "b" = "ba".
Proof. reflexivity. Qed.

Example toString_ex :
  toStringJS (VArr [VStr "a"; VNull; VArr [VNum (-12); VBool true]; VObj []])
  = "a,,-12,true,[object Object]".
Proof. reflexivity. Qed.

Example readLiteral_ex : readLiteral "it''s' rest" = Some ("it's", " rest").
Proof. reflexivity. Qed.

(** ** Laws of the runner *)

Section RunLaws.

Variable W : Type.
Variable answer : W -> Call -> Reply * W.

Lemma runProg_bindProg {A B} (p : Prog A) (f : A -> Prog B) (w : W) :
  runProg answer (bindProg p f) w =
    let '(a, t1, w1) := runProg answer p w in
    let '(b, t2, w2) := runProg answer (f a) w1 in
    (b, (t1 ++ t2)%list, w2).
Proof.
  revert w. induction p as [a|c k IH]; intros w; simpl.
  - destruct (runProg answer (f a) w) as [[b t2] w2]. reflexivity.
  - destruct (answer w c) as [r w1]. rewrite IH.
    destruct (runProg answer (k r) w1) as [[a t1] w2].
    destruct (runProg answer (f a) w2) as [[b t2] w3]. reflexivity.
Qed.

Lemma run_bind {A B} (m : Js A) (f : A -> Js B) (g : Globals) (w : W) :
  run answer (bind m f) g w =
    let '(c, g1, t1, w1) := run answer m g w in
    match c with
    | Normal a =>
        let '(c2, g2, t2, w2) := run answer (f a) g1 w1 in
        (c2, g2, (t1 ++ t2)%list, w2)
    | Thrown e => (Thrown e, g1, t1, w1)
    end.
Proof.
  unfold run, bind. rewrite runProg_bindProg.
  destruct (runProg answer (m g) w) as [[[c g1] t1] w1].
  destruct c as [a|e]; simpl.
  - destruct (runProg answer (f a g1) w1) as [[[c2 g2] t2] w2]. reflexivity.
  - rewrite app_nil_r. reflexivity.
Qed.

Lemma run_ret {A} (a : A) (g : Globals) (w : W) :
  run answer (ret a) g w = (Normal a, g, [], w).
Proof. reflexivity. Qed.

End RunLaws.

(** ** Facts about the string primitives *)

Section StringFacts.

Lemma append_empty_r (s : string) : s ++ "" = s.
Proof. induction s as [|c s IH]; simpl; [reflexivity | now rewrite IH]. Qed.

Lemma append_assoc (a b c : string) : (a ++ b) ++ c = a ++ b ++ c.
Proof. induction a as [|x a IH]; simpl; [reflexivity | now rewrite IH]. Qed.

Lemma prefix_split (p s : string) :
  prefix p s = true -> s = p ++ drop (String.length p) s.
Proof.
  revert s. induction p as [|a p IH]; intros s H; simpl in *.
  - destruct s; reflexivity.
  - destruct s as [|b s]; [discriminate|].
    simpl in H. destruct (ascii_dec a b) as [Hab|]; [|discriminate].
    subst b. simpl. f_equal. apply IH. exact H.
Qed.

Lemma prefix_length (p s : string) :
  prefix p s = true -> String.length p <= String.length s.
Proof.
  revert s. induction p as [|a p IH]; intros s H; simpl in *; [lia|].
  destruct s as [|b s]; [discriminate|].
  simpl in H. destruct (ascii_dec a b); [|discriminate].
  simpl. apply IH in H. lia.
Qed.

Lemma prefix_empty (p : string) : p <> "" -> prefix p "" = false.
Proof. destruct p; [congruence | reflexivity]. Qed.

Lemma splitFrom_not_nil (sep : string) (s : string) :
  forall skip cur, splitFrom sep skip cur s <> [].
Proof.
  induction s as [|c s IH]; intros skip cur; cbn [splitFrom]; [discriminate|].
  destruct skip; [|apply IH].
  destruct (prefix sep (String c s)); [discriminate | apply IH].
Qed.

Lemma pop_cons (x : string) (l : list string) :
  l <> [] -> pop (x :: l) = pop l.
Proof. destruct l; [congruence | reflexivity]. Qed.

(** The last piece of a split is the text after the last separator the
    scan meets, and holds no separator itself. *)
Lemma splitFrom_last (sep : string) :
  sep <> "" ->
  forall s skip cur,
    skip <= String.length s ->
    exists d,
      pop (splitFrom sep skip cur s) = Some d
      /\ ((d = cur ++ drop skip s /\ includes (drop skip s) sep = false)
          \/ (exists mid, drop skip s = mid ++ sep ++ d /\ includes d sep = false)).
Proof.
  intros Hsep. induction s as [|c s IH]; intros skip cur Hle.
  - simpl in Hle. assert (skip = 0) by lia. subst skip.
    cbn [splitFrom pop drop includes].
    exists cur. split; [reflexivity|]. left.
    rewrite append_empty_r, (prefix_empty sep Hsep). split; reflexivity.
  - destruct skip as [|k].
    + cbn [splitFrom drop].
      destruct (prefix sep (String c s)) eqn:Hp.
      * rewrite pop_cons by apply splitFrom_not_nil.
        pose proof (prefix_length _ _ Hp) as Hl.
        pose proof (prefix_split _ _ Hp) as Hs.
        assert (Hlen : String.length sep = S (String.length sep - 1)).
        { destruct sep; [congruence | simpl; lia]. }
        rewrite Hlen in Hs. cbn [drop] in Hs.
        destruct (IH (String.length sep - 1) "") as (d & Hd & Hcase).
        { simpl in Hl. lia. }
        exists d. split; [exact Hd|]. right.
        destruct Hcase as [[Heq Hinc]|(mid & Heq & Hinc)].
        -- exists "". simpl in Heq. rewrite Heq. split; [exact Hs | exact Hinc].
        -- exists (sep ++ mid). rewrite append_assoc, <- Heq.
           split; [exact Hs | exact Hinc].
      * destruct (IH 0 (cur ++ String c "")) as (d & Hd & Hcase); [lia|].
        exists d. split; [exact Hd|].
        destruct Hcase as [[Heq Hinc]|(mid & Heq & Hinc)].
        -- left. cbn [drop] in Heq, Hinc.
           rewrite append_assoc in Heq. split; [exact Heq|].
           cbn [includes]. rewrite Hp. exact Hinc.
        -- right. exists (String c mid). cbn [drop] in Heq.
           simpl. rewrite <- Heq. split; [reflexivity | exact Hinc].
    + cbn [splitFrom drop]. apply IH. simpl in Hle. lia.
Qed.

(** [dbNameOf]: the text after the last [md:], or the whole text. *)
Lemma dbNameOf_spec (safeDb : string) :
  (includes safeDb "md:" = true ->
     exists pre, safeDb = pre ++ "md:" ++ dbNameOf safeDb
                 /\ includes (dbNameOf safeDb) "md:" = false)
  /\ (includes safeDb "md:" = false -> dbNameOf safeDb = safeDb).
Proof.
  unfold dbNameOf. split; intros H; rewrite H; [|reflexivity].
  unfold split. cbn [String.eqb Ascii.eqb].
  change ("md:" =? "") with false. cbv iota.
  destruct (splitFrom_last "md:" ltac:(discriminate) safeDb 0 "" ltac:(lia))
    as (d & Hd & Hcase).
  rewrite Hd. cbn [drop] in Hcase.
  destruct Hcase as [[_ Hinc]|(mid & Heq & Hinc)]; [congruence|].
  exists mid. split; assumption.
Qed.

Lemma afterLast_none (sep s : string) :
  includes s sep = false -> afterLast sep s = None.
Proof.
  induction s as [|c s IH]; intros H; [reflexivity|].
  cbn [includes] in H. apply orb_false_iff in H as [Hp Hs].
  cbn [afterLast]. rewrite (IH Hs), Hp. reflexivity.
Qed.

Lemma prefix_md (c : ascii) (s : string) :
  prefix "md:" (String c s) = true ->
  exists rest, c = "m"%char /\ s = String "d" (String ":" rest).
Proof.
  intros H. apply prefix_split in H. cbn [String.length drop] in H.
  destruct s as [|c1 [|c2 rest]]; try discriminate H.
  cbn [drop] in H. injection H as Hc H1 H2. exists rest. subst. split; reflexivity.
Qed.

(** On the separator [md:], the last piece of a split is the text after
    the last occurrence of the separator. *)
Lemma splitFrom_md_afterLast (s : string) :
  forall skip cur,
    skip <= String.length s ->
    pop (splitFrom "md:" skip cur s) =
      Some match afterLast "md:" (drop skip s) with
           | Some d => d
           | None => cur ++ drop skip s
           end.
Proof.
  induction s as [|c s IH]; intros skip cur Hle.
  - simpl in Hle. assert (skip = 0) by lia. subst skip.
    cbn [splitFrom pop drop afterLast]. rewrite append_empty_r. reflexivity.
  - destruct skip as [|k].
    + cbn [splitFrom drop].
      destruct (prefix "md:" (String c s)) eqn:Hp.
      * rewrite pop_cons by apply splitFrom_not_nil.
        destruct (prefix_md c s Hp) as (rest & -> & ->).
        rewrite IH by (simpl; lia).
        simpl.
        destruct (afterLast "md:" rest); [reflexivity|].
        destruct rest; reflexivity.
      * rewrite IH by lia. cbn [drop afterLast]. rewrite Hp.
        destruct (afterLast "md:" s); [reflexivity|].
        rewrite append_assoc. reflexivity.
    + cbn [splitFrom drop]. apply IH. simpl in Hle. lia.
Qed.

(** [dbNameOf] computes what the words "the text after the last md: when
    one is present, otherwise the text itself" describe. *)
Lemma dbNameOf_claimed (s : string) : dbNameOf s = claimedDbName s.
Proof.
  unfold dbNameOf, claimedDbName.
  destruct (includes s "md:") eqn:Hinc.
  - unfold split. change ("md:" =? "") with false. cbv iota.
    rewrite splitFrom_md_afterLast by lia. cbn [drop].
    destruct (afterLast "md:" s); reflexivity.
  - rewrite (afterLast_none _ _ Hinc). reflexivity.
Qed.

End StringFacts.

(** ** SQL string literals *)

Section Quoting.

Lemma replaceAll_quote_nil : replaceAll "" "'" "''" = "".
Proof. reflexivity. Qed.

(** Every single quote is doubled, every other code unit is kept. *)
Lemma replaceAll_quote_cons (c : ascii) (s : string) :
  replaceAll (String c s) "'" "''" =
    (if (c =? "'")%char then "''" else String c "") ++ replaceAll s "'" "''".
Proof.
  unfold replaceAll. cbn [String.eqb Ascii.eqb].
  change ("'" =? "") with false. cbv iota.
  cbn [replaceAllFrom prefix].
  destruct (ascii_dec "'" c) as [<-|Hne].
  - destruct s; reflexivity.
  - destruct (Ascii.eqb_spec c "'") as [->|_]; [congruence | reflexivity].
Qed.

(** A quoted, quote-doubled text is read back as the original text. *)
Lemma readLiteral_escaped (s rest : string) :
  startsWith rest "'" = false ->
  readLiteral (replaceAll s "'" "''" ++ "'" ++ rest) = Some (s, rest).
Proof.
  intros Hrest. induction s as [|c s IH].
  - rewrite replaceAll_quote_nil. cbn [append readLiteral Ascii.eqb].
    change (("'" =? "'")%char) with true. cbv iota.
    destruct rest as [|c' rest']; [reflexivity|].
    unfold startsWith in Hrest. simpl in Hrest.
    destruct (ascii_dec "'" c') as [<-|Hne]; [destruct rest'; discriminate|].
    destruct (Ascii.eqb_spec c' "'") as [->|_]; [congruence | reflexivity].
  - rewrite replaceAll_quote_cons.
    destruct (Ascii.eqb_spec c "'") as [->|Hne].
    + change (("''" ++ replaceAll s "'" "''") ++ "'" ++ rest)
        with (String "'" (String "'" (replaceAll s "'" "''" ++ "'" ++ rest))).
      cbn [readLiteral]. change (("'" =? "'")%char) with true. cbv iota.
      rewrite IH. reflexivity.
    + change ((String c "" ++ replaceAll s "'" "''") ++ "'" ++ rest)
        with (String c (replaceAll s "'" "''" ++ "'" ++ rest)).
      cbn [readLiteral].
      destruct (Ascii.eqb_spec c "'") as [->|_]; [congruence|].
      rewrite IH. reflexivity.
Qed.

Lemma replaceAll_quote_free (s : string) :
  includes s "'" = false -> replaceAll s "'" "''" = s.
Proof.
  induction s as [|c s IH]; intros H; [reflexivity|].
  rewrite replaceAll_quote_cons.
  cbn [includes prefix] in H. apply orb_false_iff in H as [Hc Hs].
  destruct (Ascii.eqb_spec c "'") as [->|Hne].
  - exfalso. destruct (ascii_dec "'" "'"); [destruct s; discriminate | congruence].
  - simpl. rewrite (IH Hs). reflexivity.
Qed.


Lemma prefix_nil (s : string) : prefix "" s = true.
Proof. destruct s; reflexivity. Qed.

End Quoting.

(** ** Case folding *)

Section CaseFolding.

Ltac by_cases c :=
  destruct c as [[] [] [] [] [] [] [] []]; vm_compute;
  (split; [intros H; first [discriminate H | now left | now right]
          | intros [H|H]; first [discriminate H | reflexivity]]).

Lemma toLowerChar_t (c : ascii) :
  toLowerChar c = "t"%char <-> c = "t"%char \/ c = "T"%char.
Proof. by_cases c. Qed.

Lemma toLowerChar_r (c : ascii) :
  toLowerChar c = "r"%char <-> c = "r"%char \/ c = "R"%char.
Proof. by_cases c. Qed.

Lemma toLowerChar_u (c : ascii) :
  toLowerChar c = "u"%char <-> c = "u"%char \/ c = "U"%char.
Proof. by_cases c. Qed.

Lemma toLowerChar_e (c : ascii) :
  toLowerChar c = "e"%char <-> c = "e"%char \/ c = "E"%char.
Proof. by_cases c. Qed.

(** The texts whose lower-case form is [true] are the sixteen spellings
    of t-r-u-e in either case. *)
Lemma toLowerCase_true (s : string) :
  toLowerCase s = "true" <->
  exists c1 c2 c3 c4,
    s = String c1 (String c2 (String c3 (String c4 "")))
    /\ (c1 = "t" \/ c1 = "T")%char /\ (c2 = "r" \/ c2 = "R")%char
    /\ (c3 = "u" \/ c3 = "U")%char /\ (c4 = "e" \/ c4 = "E")%char.
Proof.
  split.
  - intros H.
    destruct s as [|c1 [|c2 [|c3 [|c4 [|c5 s]]]]]; try discriminate H.
    simpl in H. injection H as H1 H2 H3 H4.
    exists c1, c2, c3, c4. split; [reflexivity|].
    rewrite <- toLowerChar_t, <- toLowerChar_r, <- toLowerChar_u, <- toLowerChar_e.
    repeat split; assumption.
  - intros (c1 & c2 & c3 & c4 & -> & H1 & H2 & H3 & H4). simpl.
    apply toLowerChar_t in H1. apply toLowerChar_r in H2.
    apply toLowerChar_u in H3. apply toLowerChar_e in H4.
    rewrite H1, H2, H3, H4. reflexivity.
Qed.

End CaseFolding.

(** ** The ad-hoc query endpoint *)

Section QueryEndpoint.

Variable W : Type.
Variable answer : W -> Call -> Reply * W.

Lemma query_not_configured (g : Globals) (w : W) (req : Request) :
  motherDuckConnection g = None ->
  run answer (queryHandler req) g w = (Normal notConfigured, g, [], w).
Proof.
  intros H. unfold run, queryHandler, tryCatch, bind, getMotherDuckConnection.
  simpl. rewrite H. reflexivity.
Qed.

Lemma query_missing (g : Globals) (w : W) (req : Request) (conn : Connection) :
  motherDuckConnection g = Some conn ->
  negb (truthy (sqlField req)) || negb (typeof (sqlField req) =? "string") = true ->
  run answer (queryHandler req) g w = (Normal missingSql, g, [], w).
Proof.
  intros H Hbad. unfold run, queryHandler, tryCatch, bind, getMotherDuckConnection.
  simpl. rewrite H. simpl. rewrite Hbad. reflexivity.
Qed.

Lemma query_not_select (g : Globals) (w : W) (req : Request) (conn : Connection)
      (s : string) :
  motherDuckConnection g = Some conn ->
  sqlField req = VStr s -> s <> "" ->
  startsWith (toLowerCase (trim s)) "select" = false ->
  run answer (queryHandler req) g w = (Normal onlySelect, g, [], w).
Proof.
  intros H Hs Hne Hsel.
  unfold run, queryHandler, tryCatch, bind, getMotherDuckConnection.
  simpl. rewrite H. simpl. rewrite Hs. simpl.
  destruct (String.eqb_spec s "") as [->|_]; [contradiction|].
  simpl. rewrite Hsel. reflexivity.
Qed.

Lemma query_executes (g : Globals) (w : W) (req : Request) (conn : Connection)
      (s : string) :
  motherDuckConnection g = Some conn ->
  sqlField req = VStr s -> s <> "" ->
  startsWith (toLowerCase (trim s)) "select" = true ->
  run answer (queryHandler req) g w =
    (relayed "rows" (fst (answer w (ConnAll s))),
     g, [(ConnAll s, fst (answer w (ConnAll s)))], snd (answer w (ConnAll s))).
Proof.
  intros H Hs Hne Hsel.
  unfold run, queryHandler, tryCatch, bind, getMotherDuckConnection.
  simpl. rewrite H. simpl. rewrite Hs. simpl.
  destruct (String.eqb_spec s "") as [->|_]; [contradiction|].
  simpl. rewrite Hsel. simpl.
  destruct (answer w (ConnAll s)) as [[e|rows] w']; [reflexivity|].
  unfold relayed, sendJsonResult, sendJson. cbn [fst snd].
  destruct (serialisable (VObj [("rows", rowsValue rows)])); reflexivity.
Qed.

End QueryEndpoint.

Lemma sql_guard_spec (v : Value) :
  negb (truthy v) || negb (typeof v =? "string") = true <->
  (v = VUndefined \/ v = VStr "" \/ typeof v <> "string").
Proof.
  destruct v as [| |b|n|s|l|fs|z]; simpl.
  5: { destruct (String.eqb_spec s "") as [->|Hne]; simpl.
       - split; [intros _; right; left; reflexivity | reflexivity].
       - split; [discriminate|].
         intros [H|[H|H]]; try discriminate; try congruence. }
  all: split; [intros _; right; right; discriminate
              | intros _; first [reflexivity | apply orb_true_r]].
Qed.

Section QueryClaims.

Variable W : Type.
Variable answer : W -> Call -> Reply * W.

(** C1.  The checks of POST /api/md/query are applied in order and the
    first one that fails decides the response: 503 when no connection
    is configured; otherwise 400 with the missing-SQL message when the
    body's [sql] is absent, the empty string or not a string; otherwise
    400 with the only-SELECT message when the trimmed, lower-cased text
    does not start with [select]; otherwise the SQL is executed: the
    driver receives exactly one call, carrying it, and its reply goes to
    the callback.  Every request falls under one of the four cases. *)
Theorem query_validation_in_order (g : Globals) (w : W) (req : Request) :
  (motherDuckConnection g = None ->
     run answer (queryHandler req) g w =
       (Normal (statusJson 503
          (VObj [("error", VStr "MotherDuck not configured. Set MOTHERDUCK_TOKEN.")])),
        g, [], w))
  /\ (motherDuckConnection g <> None ->
      (sqlField req = VUndefined \/ sqlField req = VStr ""
       \/ typeof (sqlField req) <> "string") ->
      run answer (queryHandler req) g w =
        (Normal (statusJson 400 (VObj [("error", VStr "Missing SQL in body { sql }")])),
         g, [], w))
  /\ (forall s, motherDuckConnection g <> None ->
      sqlField req = VStr s -> s <> "" ->
      startsWith (toLowerCase (trim s)) "select" = false ->
      run answer (queryHandler req) g w =
        (Normal (statusJson 400 (VObj [("error", VStr "Only SELECT queries are allowed.")])),
         g, [], w))
  /\ (forall s, motherDuckConnection g <> None ->
      sqlField req = VStr s -> s <> "" ->
      startsWith (toLowerCase (trim s)) "select" = true ->
      exists r w',
        answer w (ConnAll s) = (r, w') /\
        run answer (queryHandler req) g w =
          (relayed "rows" r, g, [(ConnAll s, r)], w'))
  /\ ((sqlField req = VUndefined \/ sqlField req = VStr ""
       \/ typeof (sqlField req) <> "string")
      \/ exists s, sqlField req = VStr s /\ s <> "").
Proof.
  split; [apply query_not_configured|].
  split; [|split; [|split]].
  4: { destruct (sqlField req) as [| |b|n|s|l|fs|z];
         try (left; right; right; discriminate).
       destruct (String.eqb_spec s "") as [->|Hne].
       - left. right. left. reflexivity.
       - right. exists s. split; [reflexivity | exact Hne]. }
  - intros Hc Hbad. destruct (motherDuckConnection g) as [conn|] eqn:E; [|congruence].
    apply (query_missing W answer g w req conn E).
    apply sql_guard_spec. exact Hbad.
  - intros s Hc Hs Hne Hsel.
    destruct (motherDuckConnection g) as [conn|] eqn:E; [|congruence].
    exact (query_not_select W answer g w req conn s E Hs Hne Hsel).
  - intros s Hc Hs Hne Hsel.
    destruct (motherDuckConnection g) as [conn|] eqn:E; [|congruence].
    rewrite (query_executes W answer g w req conn s E Hs Hne Hsel).
    destruct (answer w (ConnAll s)) as [r w'] eqn:Ea. simpl.
    exists r, w'. split; reflexivity.
Qed.


(** C3 (amended).  A request to POST /api/md/query whose [sql] string,
    trimmed and lower-cased, does not start with [select] never makes
    the handler call the driver; the response is 400 when a connection
    is configured, and the 503 of the unconfigured server when none
    is. *)
Theorem non_select_never_reaches_driver
        (g : Globals) (w : W) (req : Request) (s : string) :
  sqlField req = VStr s ->
  startsWith (toLowerCase (trim s)) "select" = false ->
  exists r,
    run answer (queryHandler req) g w = (Normal (Responded r), g, [], w)
    /\ (motherDuckConnection g <> None -> status r = 400)
    /\ (motherDuckConnection g = None -> status r = 503).
Proof.
  intros Hs Hsel.
  destruct (motherDuckConnection g) as [conn|] eqn:E.
  - destruct (String.eqb_spec s "") as [->|Hne].
    + eexists. split.
      * apply (query_missing W answer g w req conn E).
        rewrite Hs. reflexivity.
      * split; [reflexivity | discriminate].
    + eexists. split.
      * exact (query_not_select W answer g w req conn s E Hs Hne Hsel).
      * split; [reflexivity | discriminate].
  - eexists. split.
    + apply (query_not_configured W answer g w req E).
    + split; [congruence | reflexivity].
Qed.

End QueryClaims.

Lemma query_validation_in_order_witness :
  run scripted (queryHandler dropRequest) configured [] =
    (Normal (statusJson 400 (VObj [("error", VStr "Only SELECT queries are allowed.")])),
     configured, [], []).
Proof.
  apply (proj1 (proj2 (proj2
           (query_validation_in_order (list Reply) scripted configured [] dropRequest)))
           "drop table x").
  - discriminate.
  - reflexivity.
  - discriminate.
  - reflexivity.
Defined.



(** Counterexample to C3 as stated: with no connection configured the
    request [{sql: "drop table x"}] is answered 503, not 400. *)
Lemma non_select_unconfigured_is_not_400 :
  ~ (forall (g : Globals) (req : Request) (s : string),
       sqlField req = VStr s ->
       startsWith (toLowerCase (trim s)) "select" = false ->
       exists r,
         run scripted (queryHandler req) g [] = (Normal (Responded r), g, [], [])
         /\ status r = 400).
Proof.
  intros H.
  destruct (H initialGlobals dropRequest "drop table x" eq_refl eq_refl)
    as (r & Hrun & Hst).
  vm_compute in Hrun. injection Hrun as <-. vm_compute in Hst. discriminate.
Qed.

Lemma non_select_never_reaches_driver_witness :
  exists r,
    run scripted (queryHandler dropRequest) configured [Gave okRows]
      = (Normal (Responded r), configured, [], [Gave okRows])
    /\ status r = 400.
Proof.
  destruct (non_select_never_reaches_driver (list Reply) scripted configured
              [Gave okRows] dropRequest "drop table x" eq_refl eq_refl)
    as (r & Hrun & Hconf & _).
  exists r. split; [exact Hrun|]. apply Hconf. discriminate.
Defined.

(** ** Start-up and the unconfigured server *)

Section Startup.

Variable W : Type.
Variable answer : W -> Call -> Reply * W.

Lemma app_unconfigured (env : Env) (now : string) (req : Request)
      (g : Globals) (w : W) :
  motherDuckConnection g = None ->
  run answer (app env now req) g w = (Normal unavailable, g, [], w).
Proof.
  intros H. unfold app, run.
  destruct (endpoint req); simpl;
    unfold tablesHandler, diagnosticsHandler, pingHandler, queryHandler,
           tryCatch, bind, getMotherDuckConnection; simpl;
    rewrite H; reflexivity.
Qed.

Lemma serve_unconfigured (env : Env) (reqs : list (string * Request))
      (g : Globals) (w : W) :
  motherDuckConnection g = None ->
  exists out,
    serve answer env reqs g w = (out, g, w)
    /\ Forall answered503 out
    /\ List.length out = List.length reqs.
Proof.
  intros H. induction reqs as [|[now req] rest IH].
  - exists []. repeat split. constructor.
  - destruct IH as (out & Hs & Hall & Hlen).
    exists ((Normal unavailable, []) :: out). simpl.
    rewrite (app_unconfigured env now req g w H). rewrite Hs.
    repeat split.
    + constructor; [|exact Hall]. split; [reflexivity|].
      exists unavailable. split; reflexivity.
    + simpl. rewrite Hlen. reflexivity.
Qed.

Lemma init_without_token (env : Env) (g : Globals) (w : W) :
  truthy (envValue (MOTHERDUCK_TOKEN env)) = false ->
  run answer (initializeMotherDuckConnection env) g w =
    (Normal tt, g,
     [(ConsoleWarn
         "MotherDuck token not set. Set MOTHERDUCK_TOKEN to enable MotherDuck endpoints.",
       fst (answer w (ConsoleWarn
         "MotherDuck token not set. Set MOTHERDUCK_TOKEN to enable MotherDuck endpoints.")))],
     snd (answer w (ConsoleWarn
         "MotherDuck token not set. Set MOTHERDUCK_TOKEN to enable MotherDuck endpoints."))).
Proof.
  intros H. unfold run, initializeMotherDuckConnection. rewrite H. simpl.
  destruct (answer w _) as [r w']. reflexivity.
Qed.

(** C4.  When the token variable is unset at start-up, initialization
    makes no call to the driver and leaves both handles unset, and from
    then on every request to the tables, diagnostics, ping and query
    endpoints is answered 503 without any call being made. *)
Theorem no_token_every_md_endpoint_unavailable
        (env : Env) (w : W) (reqs : list (string * Request)) :
  MOTHERDUCK_TOKEN env = None ->
  exists t0 w0 out,
    run answer (initializeMotherDuckConnection env) initialGlobals w
      = (Normal tt, initialGlobals, t0, w0)
    /\ driverCalls t0 = []
    /\ serve answer env reqs initialGlobals w0 = (out, initialGlobals, w0)
    /\ Forall answered503 out
    /\ List.length out = List.length reqs.
Proof.
  intros H.
  destruct (serve_unconfigured env reqs initialGlobals
              (snd (answer w (ConsoleWarn
                 "MotherDuck token not set. Set MOTHERDUCK_TOKEN to enable MotherDuck endpoints.")))
              eq_refl)
    as (out & Hs & Hall & Hlen).
  eexists _, _, out. split.
  - apply init_without_token. rewrite H. reflexivity.
  - split; [reflexivity|]. split; [exact Hs|]. split; assumption.
Qed.

Ltac step_driver :=
  match goal with
  | |- context [answer ?w ?c] =>
      let e := fresh "e" in
      let rows := fresh "rows" in
      let w' := fresh "w" in
      destruct (answer w c) as [[e|rows] w'] eqn:?; simpl
  end.

Ltac find_in := (left; reflexivity) + (right; find_in).
Ltac threw_here :=
  eexists _, _; split; [simpl; find_in | reflexivity].

Lemma init_with_token (env : Env) (g : Globals) (w : W) :
  truthy (envValue (MOTHERDUCK_TOKEN env)) = true ->
  motherDuckConnection g = None ->
  exists g' t w',
    run answer (initializeMotherDuckConnection env) g w = (Normal tt, g', t, w')
    /\ (someDriverCallThrew t <-> motherDuckConnection g' = None).
Proof.
  intros H Hg. unfold run, initializeMotherDuckConnection. rewrite H.
  unfold tryCatch, bind, newDatabase, connect, connRun, invoke, console, call,
    setMotherDuckDb, setMotherDuckConnection, getGlobals, putGlobals, ret, throw.
  simpl.
  generalize (attachStatement
                (replaceAll
                   (toStringJS (orJs (envValue (MOTHERDUCK_DATABASE env)) (VStr "md:default")))
                   "'" "''")
                (replaceAll (toStringJS (envValue (MOTHERDUCK_TOKEN env))) "'" "''")).
  generalize (useStatement
                (dbNameOf
                   (replaceAll
                      (toStringJS (orJs (envValue (MOTHERDUCK_DATABASE env)) (VStr "md:default")))
                      "'" "''"))).
  intros useS attachS.
  step_driver.
  { step_driver; eexists _, _, _; (split; [reflexivity|]); simpl;
      (split; [intros _; exact Hg | intros _; threw_here]). }
  step_driver.
  { step_driver; eexists _, _, _; (split; [reflexivity|]); simpl;
      (split; [intros _; exact Hg | intros _; threw_here]). }
  step_driver.
  { step_driver; eexists _, _, _; (split; [reflexivity|]); simpl;
      (split; [intros _; exact Hg | intros _; threw_here]). }
  step_driver.
  { step_driver; eexists _, _, _; (split; [reflexivity|]); simpl;
      (split; [intros _; exact Hg | intros _; threw_here]). }
  step_driver.
  { step_driver; eexists _, _, _; (split; [reflexivity|]); simpl;
      (split; [intros _; exact Hg | intros _; threw_here]). }
  step_driver.
  { step_driver; eexists _, _, _; (split; [reflexivity|]); simpl;
      (split; [intros _; exact Hg | intros _; threw_here]). }
  destruct (answer _ (ConsoleLog _)) as [r7 w7]; simpl.
  eexists _, _, _. split; [reflexivity|]. simpl.
  split; [|discriminate].
  intros (c & e & Hin & Hd). simpl in Hin.
  repeat (destruct Hin as [Hin|Hin]; [inversion Hin; subst; discriminate|]).
  contradiction.
Qed.

(** C8.  When the token is present and a step of the start-up sequence
    (opening the database, connecting, INSTALL, LOAD, ATTACH, USE)
    throws, the exception does not leave
    [initializeMotherDuckConnection]: it completes normally, the
    connection handle is still unset, and the process then serves every
    request as the unconfigured server does. *)
Theorem attach_failure_leaves_connection_unset
        (env : Env) (tok : string) (w : W) (reqs : list (string * Request)) :
  MOTHERDUCK_TOKEN env = Some tok -> tok <> "" ->
  exists g' t w',
    run answer (initializeMotherDuckConnection env) initialGlobals w
      = (Normal tt, g', t, w')
    /\ (someDriverCallThrew t ->
        motherDuckConnection g' = None
        /\ exists out,
             serve answer env reqs g' w' = (out, g', w')
             /\ Forall answered503 out
             /\ List.length out = List.length reqs).
Proof.
  intros Htok Hne.
  destruct (init_with_token env initialGlobals w) as (g' & t & w' & Hrun & Hiff).
  - rewrite Htok. simpl. destruct (String.eqb_spec tok ""); [contradiction|reflexivity].
  - reflexivity.
  - exists g', t, w'. split; [exact Hrun|].
    intros Hthrew. apply Hiff in Hthrew. split; [exact Hthrew|].
    apply serve_unconfigured. exact Hthrew.
Qed.

End Startup.

Lemma no_token_every_md_endpoint_unavailable_witness :
  exists t0 out,
    run scripted (initializeMotherDuckConnection (mkEnv None (Some "md:perps") None))
        initialGlobals [Gave okRows]
      = (Normal tt, initialGlobals, t0, [])
    /\ driverCalls t0 = []
    /\ serve scripted (mkEnv None (Some "md:perps") None)
         [("t1", selectRequest); ("t2", dropRequest)] initialGlobals []
       = (out, initialGlobals, [])
    /\ Forall answered503 out.
Proof.
  destruct (no_token_every_md_endpoint_unavailable (list Reply) scripted
              (mkEnv None (Some "md:perps") None) [Gave okRows]
              [("t1", selectRequest); ("t2", dropRequest)] eq_refl)
    as (t0 & w0 & out & Hrun & Hd & Hs & Hall & _).
  assert (Hw : w0 = []).
  { vm_compute in Hrun. injection Hrun as _ Hw. symmetry. exact Hw. }
  subst w0. exists t0, out. repeat split; assumption.
Defined.

Lemma attach_failure_leaves_connection_unset_witness :
  exists g' t w',
    run scripted (initializeMotherDuckConnection (mkEnv (Some "tok") None None))
        initialGlobals attachFails
      = (Normal tt, g', t, w')
    /\ motherDuckConnection g' = None.
Proof.
  destruct (attach_failure_leaves_connection_unset (list Reply) scripted
              (mkEnv (Some "tok") None None) "tok" attachFails [] eq_refl)
    as (g' & t & w' & Hrun & Himp).
  - discriminate.
  - exists g', t, w'. split; [exact Hrun|].
    apply Himp. vm_compute in Hrun. injection Hrun as _ Ht _. subst t.
    exists (ConnRun "ATTACH 'md:default' (TOKEN 'tok');"), sampleError.
    split; [|reflexivity]. simpl. tauto.
Defined.

(** ** The statements of the attach sequence *)

Section AttachSequence.

Variable W : Type.
Variable answer : W -> Call -> Reply * W.

Ltac next_call :=
  match goal with
  | |- context [answer ?w ?c] =>
      let e := fresh "e" in
      let rows := fresh "rows" in
      let w' := fresh "w" in
      destruct (answer w c) as [[e|rows] w']; simpl
  end.

(** Start-up issues the statements of [attachSequence], in order, up to
    the first that throws; it issues all six exactly when it sets the
    connection. *)
Lemma init_driver_calls (env : Env) (g : Globals) (w : W) :
  truthy (envValue (MOTHERDUCK_TOKEN env)) = true ->
  motherDuckConnection g = None ->
  exists n,
    driverCalls (transcriptOf (run answer (initializeMotherDuckConnection env) g w))
      = firstn n (attachSequence env)
    /\ (motherDuckConnection
          (globalsOf (run answer (initializeMotherDuckConnection env) g w)) <> None
        -> n = 6).
Proof.
  intros H Hg.
  unfold run, initializeMotherDuckConnection, attachSequence, tokenOf, identifierOf.
  rewrite H.
  unfold tryCatch, bind, newDatabase, connect, connRun, invoke, console, call,
    setMotherDuckDb, setMotherDuckConnection, getGlobals, putGlobals, ret, throw.
  simpl.
  generalize (attachStatement
                (replaceAll
                   (toStringJS (orJs (envValue (MOTHERDUCK_DATABASE env)) (VStr "md:default")))
                   "'" "''")
                (replaceAll (toStringJS (envValue (MOTHERDUCK_TOKEN env))) "'" "''")).
  generalize (useStatement
                (dbNameOf
                   (replaceAll
                      (toStringJS (orJs (envValue (MOTHERDUCK_DATABASE env)) (VStr "md:default")))
                      "'" "''"))).
  intros useS attachS.
  next_call.
  { next_call; exists 1; (split; [reflexivity | intros Hc; elim Hc; exact Hg]). }
  next_call.
  { next_call; exists 2; (split; [reflexivity | intros Hc; elim Hc; exact Hg]). }
  next_call.
  { next_call; exists 3; (split; [reflexivity | intros Hc; elim Hc; exact Hg]). }
  next_call.
  { next_call; exists 4; (split; [reflexivity | intros Hc; elim Hc; exact Hg]). }
  next_call.
  { next_call; exists 5; (split; [reflexivity | intros Hc; elim Hc; exact Hg]). }
  next_call.
  { next_call; exists 6; (split; [reflexivity | intros Hc; elim Hc; exact Hg]). }
  destruct (answer _ (ConsoleLog _)) as [r7 w7]; simpl.
  exists 6. split; reflexivity.
Qed.

End AttachSequence.

Section AttachClaims.

Variable W : Type.
Variable answer : W -> Call -> Reply * W.

(** C10 (amended).  During connection initialization every single quote
    of the token and of the catalog identifier is doubled before the
    two are embedded in the ATTACH statement, so both embedded literals
    are well-formed: each is read back as the original text, followed
    by the rest of the statement.  The name given to USE is taken from
    the quote-doubled identifier, not from the identifier: it is the
    text after the last [md:] of the quote-doubled identifier when it
    has one, otherwise the quote-doubled identifier itself, and it is
    embedded with no quotes around it and no further escaping.  (The
    quote-doubled identifier is the identifier itself when that has no
    single quote.) *)
Theorem attach_literals_and_use_name (env : Env) (w : W) :
  truthy (envValue (MOTHERDUCK_TOKEN env)) = true ->
  let token := tokenOf env in
  let identifier := identifierOf env in
  let safeToken := replaceAll token "'" "''" in
  let safeDb := replaceAll identifier "'" "''" in
  let dbName := dbNameOf safeDb in
  (exists n,
     driverCalls (transcriptOf
        (run answer (initializeMotherDuckConnection env) initialGlobals w))
     = firstn n [NewDatabase ":memory:"; DbConnect;
                 ConnRun "INSTALL motherduck;"; ConnRun "LOAD motherduck;";
                 ConnRun ("ATTACH '" ++ safeDb ++ "' (TOKEN '" ++ safeToken ++ "');");
                 ConnRun ("USE " ++ dbName ++ ";")]
     /\ (motherDuckConnection
           (globalsOf (run answer (initializeMotherDuckConnection env) initialGlobals w))
         <> None -> n = 6))
  /\ (forall c s,
        replaceAll (String c s) "'" "''" =
          (if (c =? "'")%char then "''" else String c "") ++ replaceAll s "'" "''")
  /\ readLiteral (safeDb ++ "' (TOKEN '" ++ safeToken ++ "');")
     = Some (identifier, " (TOKEN '" ++ safeToken ++ "');")
  /\ readLiteral (safeToken ++ "');") = Some (token, ");")
  /\ dbName = claimedDbName safeDb
  /\ (includes safeDb "md:" = true ->
        exists pre, safeDb = pre ++ "md:" ++ dbName /\ includes dbName "md:" = false)
  /\ (includes safeDb "md:" = false -> dbName = safeDb)
  /\ (includes identifier "'" = false -> safeDb = identifier).
Proof.
  intros Htok token identifier safeToken safeDb dbName.
  split.
  { destruct (init_driver_calls W answer env initialGlobals w Htok eq_refl)
      as (n & Hn & Hall).
    exists n. split; [exact Hn | exact Hall]. }
  split; [exact replaceAll_quote_cons|].
  split; [apply (readLiteral_escaped identifier); reflexivity|].
  split; [apply (readLiteral_escaped token); reflexivity|].
  split; [apply dbNameOf_claimed|].
  split; [apply (proj1 (dbNameOf_spec safeDb))|].
  split; [apply (proj2 (dbNameOf_spec safeDb))|].
  apply replaceAll_quote_free.
Qed.

End AttachClaims.

(** Counterexample to C10 as stated: for the identifier [md:a'b] the text
    after the last [md:] is [a'b], but the statement issued is
    [USE a''b;]. *)
Lemma use_name_of_quoted_identifier :
  claimedDbName (identifierOf quotedEnv) = "a'b"
  /\ In (ConnRun "USE a''b;")
        (driverCalls (transcriptOf
           (run scripted (initializeMotherDuckConnection quotedEnv) initialGlobals [])))
  /\ ~ In (ConnRun ("USE " ++ claimedDbName (identifierOf quotedEnv) ++ ";"))
        (driverCalls (transcriptOf
           (run scripted (initializeMotherDuckConnection quotedEnv) initialGlobals []))).
Proof.
  split; [reflexivity|]. split.
  - vm_compute. tauto.
  - vm_compute. intros H.
    repeat (destruct H as [H|H]; [discriminate|]). exact H.
Qed.

Lemma attach_literals_and_use_name_witness :
  driverCalls (transcriptOf
     (run scripted (initializeMotherDuckConnection quotedEnv) initialGlobals []))
  = [NewDatabase ":memory:"; DbConnect;
     ConnRun "INSTALL motherduck;"; ConnRun "LOAD motherduck;";
     ConnRun "ATTACH 'md:a''b' (TOKEN 'to''k');"; ConnRun "USE a''b;"]
  /\ readLiteral "md:a''b' (TOKEN 'to''k');" = Some ("md:a'b", " (TOKEN 'to''k');")
  /\ readLiteral "to''k');" = Some ("to'k", ");").
Proof.
  destruct (attach_literals_and_use_name (list Reply) scripted quotedEnv
              [] eq_refl)
    as (_ & _ & Hdb & Htok & _).
  split; [reflexivity|]. split; [exact Hdb | exact Htok].
Defined.

(** ** Diagnostics and the error handler *)

Section Diagnostics.

Variable W : Type.
Variable answer : W -> Call -> Reply * W.

(** With a connection configured, GET /api/md/diagnostics issues its four
    sub-queries, in order, whatever each of them answers, and builds the
    report: a failing sub-query leaves its field [null] and puts its
    message under [errors], a succeeding one fills its field.  The report
    is then handed to [res.json]: the response is 200 with the report
    when the report can be serialised; when it holds a BigInt the call
    throws inside the last callback and no response is sent. *)
Lemma diagnostics_attempts_every_query
      (env : Env) (now : string) (g : Globals) (w : W) (req : Request) :
  endpoint req = Diagnostics ->
  motherDuckConnection g <> None ->
  exists r1 r2 r3 r4 w',
    run answer (app env now req) g w =
      (if serialisable (diagReport r1 r2 r3 r4)
       then Normal {| status := 200; payload := diagReport r1 r2 r3 r4 |}
       else Thrown bigIntTypeError,
       g,
       [(ConnAll "PRAGMA database_list;", r1);
        (ConnAll "SELECT current_database() AS current_database;", r2);
        (ConnAll "SELECT schema_name FROM information_schema.schemata ORDER BY schema_name;", r3);
        (ConnAll "SELECT COUNT(*) AS table_count FROM information_schema.tables;", r4)],
       w').
Proof.
  intros He Hc.
  destruct (motherDuckConnection g) as [conn|] eqn:E; [|congruence].
  remember serialisable as ser eqn:Hser.
  unfold app, run. rewrite He. simpl handlerOf.
  unfold diagnosticsHandler, bind, getMotherDuckConnection, getGlobals, connAll,
    call, ret. simpl. rewrite E. simpl.
  destruct (answer w (ConnAll diagQuery1)) as [r1 w1].
  destruct (answer w1 (ConnAll diagQuery2)) as [r2 w2].
  destruct (answer w2 (ConnAll diagQuery3)) as [r3 w3].
  destruct (answer w3 (ConnAll diagQuery4)) as [r4 w4].
  exists r1, r2, r3, r4, w4.
  assert (Hv : diagValue (diagStep4 r4 (diagStep3 r3 (diagStep2 r2
                 (diagStep1 r1 diagInitial)))) = diagReport r1 r2 r3 r4).
  { destruct r1, r2, r3, r4; reflexivity. }
  rewrite Hv. unfold sendJson. subst ser.
  destruct (serialisable (diagReport r1 r2 r3 r4)); reflexivity.
Qed.

End Diagnostics.

(** A report with one failed sub-query: the message of the failure is
    recorded under [errors], the other fields are filled. *)
Example diagnostics_report_ex :
  run scripted (app tokenEnv "now" diagnosticsRequest) configured
      [Gave okRows; Gave [[("current_database", VStr "perps")]];
       Threw sampleError; Gave [[("table_count", VNum 5)]]]
  = (Normal {| status := 200;
               payload :=
                 VObj [("database_list", rowsValue okRows);
                       ("current_database", VStr "perps");
                       ("schemas", VNull);
                       ("table_count", VNum 5);
                       ("errors",
                        VObj [("schemata", VStr "Catalog Error: no such table")])] |},
     configured,
     [(ConnAll diagQuery1, Gave okRows);
      (ConnAll diagQuery2, Gave [[("current_database", VStr "perps")]]);
      (ConnAll diagQuery3, Threw sampleError);
      (ConnAll diagQuery4, Gave [[("table_count", VNum 5)]])],
     []).
Proof. reflexivity. Qed.

(** C5, the code at an input where it breaks the claim.  The claim: with
    a connection configured the diagnostics endpoint attempts all four
    sub-queries, records failures under [errors] and always responds
    200.  When the table count comes back as a BigInt, as the engine
    returns a row count, the four sub-queries are attempted and the report
    is built, but [res.json] throws on it inside the last callback: the
    handler ends in a TypeError and no response is sent.  The second
    part is the report the handler had built: the failed sub-query's
    message under [errors], the BigInt under [table_count]. *)
Theorem diagnostics_bigint_count_sends_no_response :
  run scripted (app tokenEnv "now" diagnosticsRequest) configured
      [Gave okRows; Gave [[("current_database", VStr "perps")]];
       Threw sampleError; Gave bigCount]
  = (Thrown bigIntTypeError,
     configured,
     [(ConnAll "PRAGMA database_list;", Gave okRows);
      (ConnAll "SELECT current_database() AS current_database;",
       Gave [[("current_database", VStr "perps")]]);
      (ConnAll "SELECT schema_name FROM information_schema.schemata ORDER BY schema_name;",
       Threw sampleError);
      (ConnAll "SELECT COUNT(*) AS table_count FROM information_schema.tables;",
       Gave bigCount)],
     [])
  /\ diagValue
       (diagStep4 (Gave bigCount)
          (diagStep3 (Threw sampleError)
             (diagStep2 (Gave [[("current_database", VStr "perps")]])
                (diagStep1 (Gave okRows) diagInitial))))
     = VObj [("database_list", rowsValue okRows);
             ("current_database", VStr "perps");
             ("schemas", VNull);
             ("table_count", VBigInt 5);
             ("errors", VObj [("schemata", VStr "Catalog Error: no such table")])].
Proof. split; reflexivity. Qed.

Section ErrorHandler.

Variable W : Type.
Variable answer : W -> Call -> Reply * W.

(** C7 (amended).  For every error reaching the generic error handler
    the response is 500 and its body has exactly the fields [error],
    [message] and [timestamp]; [message] is the generic "Internal
      server error" when NODE_ENV is [production], and the error's own
    message for every other setting of NODE_ENV, unset included. *)
Theorem error_handler_response
        (env : Env) (now : string) (err : JsError) (g : Globals) (w : W) :
  exists m t w',
    run answer (errorHandler env now err) g w =
      (Normal {| status := 500;
                 payload := VObj [("error", VStr "Something went wrong!");
                                  ("message", VStr m);
                                  ("timestamp", VStr now)] |},
       g, t, w')
    /\ driverCalls t = []
    /\ (NODE_ENV env = Some "production" -> m = "Internal server error")
    /\ (NODE_ENV env <> Some "production" -> m = errMessage err).
Proof.
  unfold run, errorHandler, console, bind, call, ret. simpl.
  destruct (answer w (ConsoleError (errStack err) None)) as [r w'].
  eexists _, _, _. split; [reflexivity|]. split; [reflexivity|].
  unfold errorMessageFor, isProduction. split.
  - intros ->. reflexivity.
  - intros Hn. destruct (NODE_ENV env) as [mode|]; [|reflexivity].
    destruct (String.eqb_spec mode "production") as [->|_]; [congruence|reflexivity].
Qed.

(** An error passed to [next] by a route goes through the error
    handler. *)
Lemma ping_failure_reaches_error_handler
      (env : Env) (now : string) (g : Globals) (w w1 : W) (req : Request)
      (e : JsError) :
  endpoint req = Ping ->
  motherDuckConnection g <> None ->
  answer w (ConnAll "SELECT 1 AS ok;") = (Threw e, w1) ->
  run answer (app env now req) g w =
    let '(c, g', t, w') := run answer (errorHandler env now e) g w1 in
    (c, g', (ConnAll "SELECT 1 AS ok;", Threw e) :: t, w').
Proof.
  intros He Hc Ha.
  destruct (motherDuckConnection g) as [conn|] eqn:E; [|congruence].
  unfold app, run. rewrite He. simpl handlerOf.
  unfold pingHandler, errorHandler, console, bind, getMotherDuckConnection,
    getGlobals, connAll, call, ret. simpl. rewrite E. simpl. rewrite Ha. simpl.
  destruct (answer w1 (ConsoleError (errStack e) None)) as [r w2]. reflexivity.
Qed.

End ErrorHandler.

(** Counterexample to C7 as stated: with NODE_ENV set to [test], which is
    not development mode, the response carries the error's own
    message. *)
Lemma test_mode_message_not_redacted :
  ~ (forall (env : Env) (now : string) (err : JsError),
       NODE_ENV env <> Some "development" ->
       exists t w',
         run scripted (errorHandler env now err) configured [] =
           (Normal {| status := 500;
                      payload := VObj [("error", VStr "Something went wrong!");
                                       ("message", VStr "Internal server error");
                                       ("timestamp", VStr now)] |},
            configured, t, w')).
Proof.
  intros H.
  destruct (H (mkEnv (Some "tok") None (Some "test")) "now" sampleError)
    as (t & w' & Hrun).
  - discriminate.
  - vm_compute in Hrun. discriminate.
Qed.

Lemma error_handler_response_witness :
  exists t w',
    run scripted (errorHandler (mkEnv (Some "tok") None (Some "production")) "now" sampleError)
        configured [] =
      (Normal {| status := 500;
                 payload := VObj [("error", VStr "Something went wrong!");
                                  ("message", VStr "Internal server error");
                                  ("timestamp", VStr "now")] |},
       configured, t, w').
Proof.
  destruct (error_handler_response (list Reply) scripted
              (mkEnv (Some "tok") None (Some "production")) "now" sampleError
              configured [])
    as (m & t & w' & Hrun & _ & Hprod & _).
  rewrite (Hprod eq_refl) in Hrun. exists t, w'. exact Hrun.
Defined.

(** ** Reading the catalog query *)
















(** ** The table listing *)

Section TablesEndpoint.

Variable W : Type.
Variable answer : W -> Call -> Reply * W.

Lemma tables_issues_query (g : Globals) (w : W) (req : Request) :
  motherDuckConnection g <> None ->
  run answer (tablesHandler req) g w =
    (relayed "tables" (fst (answer w (ConnAll (tablesQuery (query req))))),
     g,
     [(ConnAll (tablesQuery (query req)),
       fst (answer w (ConnAll (tablesQuery (query req)))))],
     snd (answer w (ConnAll (tablesQuery (query req))))).
Proof.
  intros Hc. destruct (motherDuckConnection g) as [conn|] eqn:E; [|congruence].
  unfold run, tablesHandler, tryCatch, bind, getMotherDuckConnection, getGlobals,
    connAll, call, ret.
  generalize (tablesQuery (query req)). intros sql.
  simpl. rewrite E. simpl.
  destruct (answer w (ConnAll sql)) as [[e|rows] w']; [reflexivity|].
  unfold relayed, sendJsonResult, sendJson. cbn [fst snd].
  destruct (serialisable (VObj [("tables", rowsValue rows)])); reflexivity.
Qed.



End TablesEndpoint.






(** * Further properties of the routes *)

(** ** How each handler runs *)

Section HandlerRuns.

Variable W : Type.
Variable answer : W -> Call -> Reply * W.

Lemma ping_runs (g : Globals) (w : W) (req : Request) :
  motherDuckConnection g <> None ->
  run answer (pingHandler req) g w =
    (relayed "rows" (fst (answer w (ConnAll "SELECT 1 AS ok;"))),
     g,
     [(ConnAll "SELECT 1 AS ok;", fst (answer w (ConnAll "SELECT 1 AS ok;")))],
     snd (answer w (ConnAll "SELECT 1 AS ok;"))).
Proof.
  intros Hc. destruct (motherDuckConnection g) as [conn|] eqn:E; [|congruence].
  unfold run, pingHandler, bind, getMotherDuckConnection, getGlobals, connAll,
    call, ret.
  simpl. rewrite E. simpl.
  destruct (answer w (ConnAll "SELECT 1 AS ok;")) as [[e|rows] w']; [reflexivity|].
  unfold relayed, sendJsonResult, sendJson. cbn [fst snd].
  destruct (serialisable (VObj [("rows", rowsValue rows)])); reflexivity.
Qed.

Lemma diagnostics_runs (g : Globals) (w : W) (req : Request) :
  motherDuckConnection g <> None ->
  exists r1 r2 r3 r4 w',
    run answer (diagnosticsHandler req) g w =
      (sendJsonResult
         (diagValue
            (diagStep4 r4 (diagStep3 r3 (diagStep2 r2 (diagStep1 r1 diagInitial))))),
       g,
       [(ConnAll diagQuery1, r1); (ConnAll diagQuery2, r2);
        (ConnAll diagQuery3, r3); (ConnAll diagQuery4, r4)],
       w').
Proof.
  intros Hc. destruct (motherDuckConnection g) as [conn|] eqn:E; [|congruence].
  unfold run, diagnosticsHandler, bind, getMotherDuckConnection, getGlobals,
    connAll, call, ret.
  simpl. rewrite E. simpl.
  destruct (answer w (ConnAll diagQuery1)) as [r1 w1].
  destruct (answer w1 (ConnAll diagQuery2)) as [r2 w2].
  destruct (answer w2 (ConnAll diagQuery3)) as [r3 w3].
  destruct (answer w3 (ConnAll diagQuery4)) as [r4 w4].
  exists r1, r2, r3, r4, w4.
  unfold sendJsonResult, sendJson.
  destruct (serialisable _); reflexivity.
Qed.

Lemma handler_unconfigured (e : Endpoint) (req : Request) (g : Globals) (w : W) :
  motherDuckConnection g = None ->
  run answer (handlerOf e req) g w = (Normal notConfigured, g, [], w).
Proof.
  intros H. unfold run.
  destruct e; simpl;
    unfold tablesHandler, diagnosticsHandler, pingHandler, queryHandler,
           tryCatch, bind, getMotherDuckConnection; simpl;
    rewrite H; reflexivity.
Qed.

Lemma error_handler_runs (env : Env) (now : string) (err : JsError)
      (g : Globals) (w : W) :
  run answer (errorHandler env now err) g w =
    (Normal {| status := 500;
               payload := VObj [("error", VStr "Something went wrong!");
                                ("message", VStr (errorMessageFor env err));
                                ("timestamp", VStr now)] |},
     g,
     [(ConsoleError (errStack err) None,
       fst (answer w (ConsoleError (errStack err) None)))],
     snd (answer w (ConsoleError (errStack err) None))).
Proof.
  unfold run, errorHandler, console, bind, call, ret. simpl.
  destruct (answer w (ConsoleError (errStack err) None)) as [r w']. reflexivity.
Qed.

Lemma relayed_shape (e : Endpoint) (g : Globals) (key q : string) (r : Reply) :
  motherDuckConnection g <> None -> e <> Diagnostics ->
  HandlerShape e g (relayed key r) [(ConnAll q, r)].
Proof.
  intros Hc He. destruct r as [err|rows]; [apply ShapeFailed; assumption|].
  unfold relayed, sendJsonResult.
  destruct (serialisable (VObj [(key, rowsValue rows)])) eqn:Hser.
  - apply ShapeAnswered; assumption.
  - apply ShapeUnsent; try assumption.
    cbn [serialisable forallb] in Hser. rewrite andb_true_r in Hser. exact Hser.
Qed.

Lemma handler_shape (e : Endpoint) (req : Request) (g : Globals) (w : W) :
  exists c t w',
    run answer (handlerOf e req) g w = (c, g, t, w')
    /\ HandlerShape e g c t.
Proof.
  destruct (motherDuckConnection g) as [conn|] eqn:E.
  2: { eexists _, _, _. split; [apply handler_unconfigured; exact E|].
       constructor. exact E. }
  assert (Hc : motherDuckConnection g <> None) by congruence.
  destruct e; simpl handlerOf.
  - rewrite (tables_issues_query W answer g w req Hc).
    eexists _, _, _. split; [reflexivity|].
    apply relayed_shape; [assumption | discriminate].
  - destruct (diagnostics_runs g w req Hc) as (r1 & r2 & r3 & r4 & w' & Hrun).
    eexists _, _, _. split; [exact Hrun|].
    unfold sendJsonResult. destruct (serialisable _) eqn:Hser.
    + apply ShapeReport; [assumption | reflexivity | exact Hser].
    + apply ShapeNoReport; [assumption | reflexivity].
  - rewrite (ping_runs g w req Hc).
    eexists _, _, _. split; [reflexivity|].
    apply relayed_shape; [assumption | discriminate].
  - destruct (negb (truthy (sqlField req)) || negb (typeof (sqlField req) =? "string"))
      eqn:Hbad.
    + eexists _, _, _. split; [apply (query_missing W answer g w req conn E Hbad)|].
      apply ShapeRejected; [assumption | reflexivity | reflexivity].
    + assert (Hs : exists s, sqlField req = VStr s /\ s <> "").
      { destruct (sqlField req) as [| |b|n|s|l|fs|z]; simpl in Hbad;
          try discriminate Hbad; try (rewrite orb_true_r in Hbad; discriminate Hbad).
        exists s. split; [reflexivity|]. intros ->. discriminate Hbad. }
      destruct Hs as (s & Hs & Hne).
      destruct (startsWith (toLowerCase (trim s)) "select") eqn:Hsel.
      * rewrite (query_executes W answer g w req conn s E Hs Hne Hsel).
        eexists _, _, _. split; [reflexivity|].
        apply relayed_shape; [assumption | discriminate].
      * eexists _, _, _.
        split; [apply (query_not_select W answer g w req conn s E Hs Hne Hsel)|].
        apply ShapeRejected; [assumption | reflexivity | reflexivity].
Qed.

End HandlerRuns.

(** ** The routes together *)

Section ServerProperties.

Variable handles : string -> string -> HttpRequest -> bool.
Variable decodeFails : HttpRequest -> option JsError.
Variable W : Type.
Variable answer : W -> Call -> Reply * W.

Lemma route_handler_run (now : string) (uptime : Value) (req : HttpRequest)
      (g : Globals) (w : W) :
  exists c t w',
    run answer (routeHandler handles decodeFails now uptime req) g w = (c, g, t, w')
    /\ RouteShape (firstRoute handles routes req) (decodeFails req)
                  now uptime req g c t.
Proof.
  unfold routeHandler, RouteShape.
  destruct (firstRoute handles routes req) as [[| | |e]|].
  1-3: eexists _, _, _; split; [reflexivity | split; reflexivity].
  - apply handler_shape.
  - destruct (decodeFails req) as [err|];
      eexists _, _, _; (split; [reflexivity | split; reflexivity]).
Qed.

(** A run of [server]: the route's handler, then the error handler when
    the outcome is [next(err)]; what the handler throws ends the run. *)
Lemma server_run (env : Env) (now : string) (uptime : Value) (req : HttpRequest)
      (g : Globals) (w : W) :
  exists c t w1,
    RouteShape (firstRoute handles routes req) (decodeFails req)
               now uptime req g c t
    /\ match c with
       | Normal (Responded r) =>
           run answer (server handles decodeFails env now uptime req) g w =
             (Normal r, g, t, w1)
       | Normal (Next err) =>
           run answer (server handles decodeFails env now uptime req) g w =
             (Normal {| status := 500;
                        payload := VObj [("error", VStr "Something went wrong!");
                                         ("message", VStr (errorMessageFor env err));
                                         ("timestamp", VStr now)] |},
              g,
              (t ++ [(ConsoleError (errStack err) None,
                      fst (answer w1 (ConsoleError (errStack err) None)))])%list,
              snd (answer w1 (ConsoleError (errStack err) None)))
       | Thrown e =>
           run answer (server handles decodeFails env now uptime req) g w =
             (Thrown e, g, t, w1)
       end.
Proof.
  destruct (route_handler_run now uptime req g w) as (c & t & w1 & Hrun & Hshape).
  exists c, t, w1. split; [exact Hshape|].
  unfold server. rewrite run_bind, Hrun.
  destruct c as [[r|err]|e].
  - rewrite run_ret. rewrite app_nil_r. reflexivity.
  - rewrite error_handler_runs. reflexivity.
  - reflexivity.
Qed.

(** X1. No request changes the module-level handles: whatever the route,
    the request and the driver's answers, the globals after the request
    are the globals before it; so they stay what start-up left for any
    sequence of requests. *)
Theorem requests_keep_the_handles
        (env : Env) (reqs : list (string * Value * HttpRequest))
        (g : Globals) (w : W) :
  snd (fst (serveHttp handles decodeFails W answer env reqs g w)) = g
  /\ List.length (fst (fst (serveHttp handles decodeFails W answer env reqs g w)))
     = List.length reqs
  /\ forall now uptime req w0,
       globalsOf (run answer (server handles decodeFails env now uptime req) g w0) = g.
Proof.
  assert (Hone : forall now uptime req w0,
             globalsOf (run answer (server handles decodeFails env now uptime req) g w0) = g).
  { intros now uptime req w0.
    destruct (server_run env now uptime req g w0) as (c & t & w1 & _ & Hrun).
    destruct c as [[r|err]|e]; rewrite Hrun; reflexivity. }
  split; [|split; [|exact Hone]].
  - revert w. induction reqs as [|[[now uptime] req] rest IH]; intros w; [reflexivity|].
    cbn [serveHttp].
    pose proof (Hone now uptime req w) as H1.
    destruct (run answer (server handles decodeFails env now uptime req) g w) as [[[c g1] t] w1].
    unfold globalsOf in H1. cbn [fst snd] in H1. subst g1.
    specialize (IH w1).
    destruct (serveHttp handles decodeFails W answer env rest g w1) as [[out g2] w2].
    exact IH.
  - revert w. induction reqs as [|[[now uptime] req] rest IH]; intros w; [reflexivity|].
    cbn [serveHttp].
    pose proof (Hone now uptime req w) as H1.
    destruct (run answer (server handles decodeFails env now uptime req) g w) as [[[c g1] t] w1].
    unfold globalsOf in H1. cbn [fst snd] in H1. subst g1.
    specialize (IH w1).
    destruct (serveHttp handles decodeFails W answer env rest g w1) as [[out g2] w2].
    cbn [fst snd List.length] in *. rewrite IH. reflexivity.
Qed.

(** X2. A request makes the server talk to the database driver through
    [conn.all] only, never through [run], [connect] or a new database,
    and at most four times; a request that is not routed to a MotherDuck
    endpoint, or that arrives while no connection is configured, makes no
    call to the driver, and no call at all unless it is the request no
    route handles whose path fails to decode, whose error is logged. *)
Theorem requests_only_query
        (env : Env) (now : string) (uptime : Value) (req : HttpRequest)
        (g : Globals) (w : W) :
  let t := transcriptOf (run answer (server handles decodeFails env now uptime req) g w) in
  let quiet := firstRoute handles routes req <> None \/ decodeFails req = None in
  Forall (fun x => isConnAll (fst x) = true) (driverPart t)
  /\ List.length (driverPart t) <= 4
  /\ ((forall e, firstRoute handles routes req <> Some (ToMd e)) ->
        driverPart t = [] /\ (quiet -> t = []))
  /\ (motherDuckConnection g = None ->
        driverPart t = [] /\ (quiet -> t = [])).
Proof.
  destruct (server_run env now uptime req g w) as (c & t & w1 & Hshape & Hrun).
  unfold RouteShape in Hshape.
  destruct (firstRoute handles routes req) as [[| | |e]|] eqn:Hroute.
  1-3: destruct Hshape as [-> ->]; cbn in Hrun; rewrite Hrun; cbn;
       repeat split; try constructor; auto; lia.
  2: { destruct Hshape as [-> ->].
       destruct (decodeFails req) as [err|]; cbn in Hrun; rewrite Hrun; cbn;
         repeat split; try apply Forall_nil; auto; try lia;
         try (intros [Hq|Hq]; [exfalso; apply Hq; reflexivity | discriminate Hq]). }
  destruct Hshape; cbn in Hrun; rewrite Hrun; cbn;
    repeat split; repeat constructor; auto; try lia;
    try (intros Hno; exfalso; apply (Hno e); reflexivity);
    try (intros Hnone; congruence).
  all: exfalso;
    first [ match goal with
            | Hno : forall e0, _ <> Some (ToMd e0) |- _ => apply (Hno e); reflexivity
            end
          | congruence ].
Qed.

(** X3. The status of a response is decided by the route, the path and
    the connection: when no route handles the request it is 404, or 500
    when the path fails to decode; 200 on the three plain routes; on a
    MotherDuck route 503 when no connection is configured, and otherwise
    200, or 400 (on the query route only), or 500 (never on the
    diagnostics route), or there is no response at all, [res.json]
    having thrown on a BigInt. *)
Theorem response_status_by_route
        (env : Env) (now : string) (uptime : Value) (req : HttpRequest)
        (g : Globals) (w : W) :
  exists c t w',
    run answer (server handles decodeFails env now uptime req) g w = (c, g, t, w')
    /\ match firstRoute handles routes req with
       | None =>
           statusOf c = Some match decodeFails req with
                             | None => 404
                             | Some _ => 500
                             end
       | Some (ToMd e) =>
           match motherDuckConnection g with
           | None => statusOf c = Some 503
           | Some _ =>
               statusOf c = Some 200
               \/ (statusOf c = Some 400 /\ e = Query)
               \/ (statusOf c = Some 500 /\ e <> Diagnostics)
               \/ c = Thrown bigIntTypeError
           end
       | Some _ => statusOf c = Some 200
       end.
Proof.
  destruct (server_run env now uptime req g w) as (c & t & w1 & Hshape & Hrun).
  unfold RouteShape in Hshape.
  destruct (firstRoute handles routes req) as [[| | |e]|] eqn:Hroute.
  1-3: destruct Hshape as [-> ->]; eexists _, _, _; split; [exact Hrun | reflexivity].
  2: { destruct Hshape as [-> ->].
       destruct (decodeFails req) as [err|];
         eexists _, _, _; (split; [exact Hrun | reflexivity]). }
  destruct Hshape as [Hn|r Hc He Hs|v q rows Hc He Hv|q rows Hc He Hv|q err Hc He
                     |v q1 q2 q3 q4 r1 r2 r3 r4 Hc He Hv
                     |q1 q2 q3 q4 r1 r2 r3 r4 Hc He];
    eexists _, _, _; (split; [exact Hrun|]);
    destruct (motherDuckConnection g); try congruence; cbn.
  - reflexivity.
  - right. left. split; [f_equal; assumption | assumption].
  - left. reflexivity.
  - right. right. right. reflexivity.
  - right. right. left. split; [reflexivity | assumption].
  - left. reflexivity.
  - right. right. right. reflexivity.
Qed.

End ServerProperties.

Section RouteProperties.

Variable handles : string -> string -> HttpRequest -> bool.
Variable decodeFails : HttpRequest -> option JsError.
Variable W : Type.
Variable answer : W -> Call -> Reply * W.

(** X4. When the driver reports an error for the query of a tables, ping
    or ad-hoc query request, the request ends in the error handler: the
    response is 500 with the fields [error], [message], [timestamp], the
    failed query is the only one issued, and the error's stack is logged
    once. *)
Theorem driver_error_gives_500
        (env : Env) (now : string) (uptime : Value) (req : HttpRequest)
        (g : Globals) (w : W) (q : string) (err : JsError) :
  firstRoute handles routes req <> Some (ToMd Diagnostics) ->
  In (ConnAll q, Threw err)
     (transcriptOf (run answer (server handles decodeFails env now uptime req) g w)) ->
  exists r w',
    run answer (server handles decodeFails env now uptime req) g w =
      (Normal {| status := 500;
                 payload := VObj [("error", VStr "Something went wrong!");
                                  ("message", VStr (errorMessageFor env err));
                                  ("timestamp", VStr now)] |},
       g,
       [(ConnAll q, Threw err); (ConsoleError (errStack err) None, r)],
       w').
Proof.
  intros Hnd Hin.
  destruct (server_run handles decodeFails W answer env now uptime req g w)
    as (c & t & w1 & Hshape & Hrun).
  unfold RouteShape in Hshape.
  destruct (firstRoute handles routes req) as [[| | |e]|] eqn:Hroute.
  1-3: destruct Hshape as [-> ->]; rewrite Hrun in Hin; destruct Hin.
  2: { destruct Hshape as [-> ->].
       destruct (decodeFails req) as [err'|]; rewrite Hrun in Hin; cbn in Hin.
       - destruct Hin as [Hin|[]]. discriminate Hin.
       - destruct Hin. }
  destruct Hshape as [Hn|r Hc He Hs|v q' rows Hc He Hv|q' rows Hc He Hv|q' err' Hc He
                     |v q1 q2 q3 q4 r1 r2 r3 r4 Hc He Hv
                     |q1 q2 q3 q4 r1 r2 r3 r4 Hc He];
    try (subst e; congruence);
    rewrite Hrun in Hin; cbn in Hin.
  - destruct Hin.
  - destruct Hin.
  - destruct Hin as [Hin|[]]. discriminate Hin.
  - destruct Hin as [Hin|[]]. discriminate Hin.
  - destruct Hin as [Hin|[Hin|[]]]; [|discriminate Hin].
    injection Hin as -> ->. eexists _, _. exact Hrun.
Qed.


(** X6. On the ping route with a connection configured, the server sends
    the constant query [SELECT 1 AS ok;] whatever the request carries,
    and when the driver answers with rows the response is 200 with those
    rows under [rows], unless [res.json] throws on a BigInt among them. *)
Theorem ping_sends_constant_query
        (env : Env) (now : string) (uptime : Value) (req : HttpRequest)
        (g : Globals) (w : W) :
  firstRoute handles routes req = Some (ToMd Ping) ->
  motherDuckConnection g <> None ->
  exists c t wf,
    run answer (server handles decodeFails env now uptime req) g w =
      (c, g, (ConnAll "SELECT 1 AS ok;", fst (answer w (ConnAll "SELECT 1 AS ok;"))) :: t, wf)
    /\ driverPart t = []
    /\ forall rows,
         fst (answer w (ConnAll "SELECT 1 AS ok;")) = Gave rows ->
         t = [] /\ c = sentResponse (VObj [("rows", rowsValue rows)]).
Proof.
  intros Hroute Hc.
  unfold server, routeHandler. rewrite Hroute. cbn [handlerOf].
  rewrite run_bind, (ping_runs W answer g w _ Hc).
  destruct (answer w (ConnAll "SELECT 1 AS ok;")) as [[e|rows] w'] eqn:Ea;
    cbn [fst snd relayed].
  - rewrite error_handler_runs.
    eexists _, _, _. split; [reflexivity|]. split; [reflexivity|].
    intros rows Hr. discriminate Hr.
  - cbn [relayed]. unfold sendJsonResult, sentResponse.
    destruct (serialisable (VObj [("rows", rowsValue rows)])) eqn:Hser;
      (eexists _, _, _; split; [reflexivity|]; split; [reflexivity|];
       intros rows' Hr; injection Hr as <-; rewrite Hser; split; reflexivity).
Qed.

(** X7. A request that no route handles reaches the layer of
    [app.use('*')].  When its path decodes, the 404 handler answers:
    status 404, [error] "Route not found", [message] "Cannot <method>
    <originalUrl>", no call made, whether or not a connection is
    configured.  When its path fails to decode, the 404 handler is
    skipped and the error handler answers 500 after logging the stack of
    the decoding error. *)
Theorem unmatched_request_gets_404
        (env : Env) (now : string) (uptime : Value) (req : HttpRequest)
        (g : Globals) (w : W) :
  firstRoute handles routes req = None ->
  (decodeFails req = None ->
   run answer (server handles decodeFails env now uptime req) g w =
     (Normal {| status := 404;
                payload :=
                  VObj [("error", VStr "Route not found");
                        ("message", VStr ("Cannot " ++ method req ++ " " ++ originalUrl req));
                        ("timestamp", VStr now)] |},
      g, [], w))
  /\ (forall err, decodeFails req = Some err ->
      run answer (server handles decodeFails env now uptime req) g w =
        (Normal {| status := 500;
                   payload := VObj [("error", VStr "Something went wrong!");
                                    ("message", VStr (errorMessageFor env err));
                                    ("timestamp", VStr now)] |},
         g,
         [(ConsoleError (errStack err) None,
           fst (answer w (ConsoleError (errStack err) None)))],
         snd (answer w (ConsoleError (errStack err) None)))).
Proof.
  intros Hroute. split.
  - intros Hd. unfold server, routeHandler. rewrite Hroute, Hd. reflexivity.
  - intros err Hd. unfold server, routeHandler. rewrite Hroute, Hd.
    rewrite run_bind, run_ret. cbv beta iota.
    rewrite error_handler_runs. reflexivity.
Qed.

(** X8. The root, hello and health routes answer 200 with their fixed
    payloads and make no call, whatever the state of the MotherDuck
    connection: the health route reports [healthy] also when no
    connection is configured. *)
Theorem plain_routes_ignore_the_connection
        (env : Env) (now : string) (uptime : Value) (req : HttpRequest)
        (g : Globals) (w : W) :
  (firstRoute handles routes req = Some ToRoot ->
     run answer (server handles decodeFails env now uptime req) g w =
       (Normal {| status := 200;
                  payload := VObj [("message", VStr "Welcome to Dex Server API");
                                   ("status", VStr "running");
                                   ("timestamp", VStr now);
                                   ("version", VStr "1.0.0")] |},
        g, [], w))
  /\ (firstRoute handles routes req = Some ToHello ->
     run answer (server handles decodeFails env now uptime req) g w =
       (Normal {| status := 200;
                  payload := VObj [("message", VStr "Hello World!");
                                   ("status", VStr "success");
                                   ("timestamp", VStr now)] |},
        g, [], w))
  /\ (firstRoute handles routes req = Some ToHealth ->
     run answer (server handles decodeFails env now uptime req) g w =
       (Normal {| status := 200;
                  payload := VObj [("status", VStr "healthy");
                                   ("uptime", uptime);
                                   ("timestamp", VStr now)] |},
        g, [], w)).
Proof.
  repeat split; intros Hroute; unfold server, routeHandler; rewrite Hroute;
    reflexivity.
Qed.

End RouteProperties.


(** ** Start-up, step by step *)

Section StartupRuns.

Variable W : Type.
Variable answer : W -> Call -> Reply * W.

Ltac next_reply :=
  match goal with
  | |- context [answer ?w ?c] =>
      let e := fresh "e" in
      let rows := fresh "rows" in
      let w' := fresh "w" in
      destruct (answer w c) as [[e|rows] w']; simpl
  end.

Ltac close_run :=
  eexists _, _, _; split; [reflexivity|]; simpl;
  repeat split; eauto.

(** Every run of start-up with a token. *)
Lemma init_runs (env : Env) (w : W) :
  truthy (envValue (MOTHERDUCK_TOKEN env)) = true ->
  exists g' t w',
    run answer (initializeMotherDuckConnection env) initialGlobals w
      = (Normal tt, g', t, w')
    /\ followsSequence (attachSequence env) t
    /\ motherDuckConnection g' = (if threwIn t then None else Some TheConnection)
    /\ motherDuckDb g' = match t with
                         | (_, Gave _) :: _ => Some TheDatabase
                         | _ => None
                         end.
Proof.
  intros H.
  unfold run, initializeMotherDuckConnection, attachSequence, tokenOf, identifierOf.
  rewrite H.
  unfold tryCatch, bind, newDatabase, connect, connRun, invoke, console, call,
    setMotherDuckDb, setMotherDuckConnection, getGlobals, putGlobals, ret, throw.
  simpl.
  generalize (attachStatement
                (replaceAll
                   (toStringJS (orJs (envValue (MOTHERDUCK_DATABASE env)) (VStr "md:default")))
                   "'" "''")
                (replaceAll (toStringJS (envValue (MOTHERDUCK_TOKEN env))) "'" "''")).
  generalize (useStatement
                (dbNameOf
                   (replaceAll
                      (toStringJS (orJs (envValue (MOTHERDUCK_DATABASE env)) (VStr "md:default")))
                      "'" "''"))).
  intros useS attachS.
  next_reply. { next_reply; close_run. }
  next_reply. { next_reply; close_run. }
  next_reply. { next_reply; close_run. }
  next_reply. { next_reply; close_run. }
  next_reply. { next_reply; close_run. }
  next_reply. { next_reply; close_run. }
  destruct (answer _ (ConsoleLog _)) as [r7 w7]; simpl.
  close_run.
Qed.

Lemma threwIn_spec (t : Transcript) :
  threwIn t = true <-> someDriverCallThrew t.
Proof.
  unfold threwIn, someDriverCallThrew. rewrite existsb_exists. split.
  - intros ([c r] & Hin & Hb). apply andb_true_iff in Hb as [Hd Ht].
    destruct r as [e|rows]; [|discriminate Ht].
    exists c, e. split; assumption.
  - intros (c & e & Hin & Hd). exists (c, Threw e). split; [exact Hin|].
    cbn [fst snd isThrew]. rewrite Hd. reflexivity.
Qed.

Lemma attachSequence_driver (env : Env) :
  Forall (fun c => isDriverCall c = true) (attachSequence env).
Proof. unfold attachSequence. repeat constructor. Qed.

Lemma follows_success (seq : list Call) (t : Transcript) :
  Forall (fun c => isDriverCall c = true) seq ->
  followsSequence seq t -> threwIn t = false ->
  exists ok r,
    t = (ok ++ [(ConsoleLog "✅ MotherDuck connection initialized", r)])%list
    /\ map fst ok = seq
    /\ Forall (fun x => isThrew (snd x) = false) ok.
Proof.
  revert seq. induction t as [|[c' r] t' IH]; intros seq Hseq Hf Ht; [destruct Hf|].
  destruct seq as [|c seq'].
  - destruct Hf as [-> ->]. exists [], r. repeat split. constructor.
  - destruct Hf as [-> Hf]. inversion Hseq as [|? ? Hc Hseq']; subst.
    unfold threwIn in Ht. cbn [existsb fst snd] in Ht. rewrite Hc in Ht.
    destruct r as [e|rows]; [discriminate Ht|].
    cbn [isThrew andb orb] in Ht.
    destruct (IH seq' Hseq' Hf Ht) as (ok & r' & -> & Hmap & Hall).
    exists ((c, Gave rows) :: ok), r'. repeat split.
    + cbn. rewrite Hmap. reflexivity.
    + constructor; [reflexivity | exact Hall].
Qed.

Lemma follows_failure (seq : list Call) (t : Transcript) :
  Forall (fun c => isDriverCall c = true) seq ->
  followsSequence seq t -> threwIn t = true ->
  exists ok c e r,
    t = (ok ++ [(c, Threw e);
                (ConsoleError "Failed to initialize MotherDuck connection:" (Some e), r)])%list
    /\ Forall (fun x => isDriverCall (fst x) = true /\ isThrew (snd x) = false) ok
    /\ map fst (ok ++ [(c, Threw e)])%list = firstn (S (List.length ok)) seq
    /\ List.length ok < List.length seq.
Proof.
  revert seq. induction t as [|[c' r] t' IH]; intros seq Hseq Hf Ht; [destruct Hf|].
  destruct seq as [|c seq'].
  - destruct Hf as [-> ->]. discriminate Ht.
  - destruct Hf as [-> Hf]. inversion Hseq as [|? ? Hc Hseq']; subst.
    destruct r as [e|rows].
    + destruct Hf as (r' & ->). exists [], c, e, r'.
      repeat split; [constructor | cbn; lia].
    + unfold threwIn in Ht. cbn [existsb fst snd isThrew] in Ht.
      rewrite andb_false_r in Ht. cbn [orb] in Ht.
      destruct (IH seq' Hseq' Hf Ht) as (ok & c1 & e & r' & -> & Hall & Hmap & Hlen).
      exists ((c, Gave rows) :: ok), c1, e, r'. repeat split.
      * constructor; [split; [exact Hc | reflexivity] | exact Hall].
      * change (c :: map fst (ok ++ [(c1, Threw e)])%list
                = c :: firstn (S (List.length ok)) seq').
        f_equal. exact Hmap.
      * cbn. lia.
Qed.

(** X9. An empty token is treated as no token: with MOTHERDUCK_TOKEN set
    to the empty string start-up only logs the warning, makes no call to
    the driver and leaves the handles as they were. *)
Theorem empty_token_is_no_token (env : Env) (g : Globals) (w : W) :
  MOTHERDUCK_TOKEN env = Some "" ->
  exists r w',
    run answer (initializeMotherDuckConnection env) g w =
      (Normal tt, g,
       [(ConsoleWarn
           "MotherDuck token not set. Set MOTHERDUCK_TOKEN to enable MotherDuck endpoints.",
         r)],
       w').
Proof.
  intros H. eexists _, _. apply init_without_token. rewrite H. reflexivity.
Qed.

(** X10. When MOTHERDUCK_DATABASE is unset or empty, start-up attaches
    the default catalog: the statements it sends are, in order and up to
    the first failure, INSTALL, LOAD, [ATTACH 'md:default'] with the
    quote-doubled token, and [USE default;]. *)
Theorem default_database_is_md_default (env : Env) (w : W) :
  truthy (envValue (MOTHERDUCK_TOKEN env)) = true ->
  MOTHERDUCK_DATABASE env = None \/ MOTHERDUCK_DATABASE env = Some "" ->
  exists n,
    driverCalls (transcriptOf
       (run answer (initializeMotherDuckConnection env) initialGlobals w))
    = firstn n [NewDatabase ":memory:"; DbConnect;
                ConnRun "INSTALL motherduck;"; ConnRun "LOAD motherduck;";
                ConnRun ("ATTACH 'md:default' (TOKEN '"
                         ++ replaceAll (tokenOf env) "'" "''" ++ "');");
                ConnRun "USE default;"].
Proof.
  intros Htok Hdb.
  destruct (init_driver_calls W answer env initialGlobals w Htok eq_refl)
    as (n & Hn & _).
  exists n. rewrite Hn. unfold attachSequence, identifierOf.
  destruct Hdb as [-> | ->]; reflexivity.
Qed.

(** X11. Start-up with a token sets the connection exactly when no call
    to the driver threw; it has then made the six calls of the attach
    sequence in order, logged its success, and set both handles. *)
Theorem startup_connects_iff_no_call_threw (env : Env) (w : W) :
  truthy (envValue (MOTHERDUCK_TOKEN env)) = true ->
  exists g' t w',
    run answer (initializeMotherDuckConnection env) initialGlobals w
      = (Normal tt, g', t, w')
    /\ (motherDuckConnection g' <> None <-> ~ someDriverCallThrew t)
    /\ (motherDuckConnection g' <> None ->
          g' = configured
          /\ driverCalls t = attachSequence env
          /\ exists ok r,
               t = (ok ++ [(ConsoleLog "✅ MotherDuck connection initialized", r)])%list
               /\ map fst ok = attachSequence env).
Proof.
  intros Htok.
  destruct (init_runs env w Htok) as (g' & t & w' & Hrun & Hf & Hconn & Hdb).
  exists g', t, w'. split; [exact Hrun|].
  assert (Hiff : motherDuckConnection g' <> None <-> ~ someDriverCallThrew t).
  { rewrite <- threwIn_spec, Hconn.
    destruct (threwIn t); split; intros H; congruence. }
  split; [exact Hiff|].
  intros Hset. apply Hiff in Hset. rewrite <- threwIn_spec in Hset.
  apply not_true_is_false in Hset.
  destruct (follows_success _ _ (attachSequence_driver env) Hf Hset)
    as (ok & r & -> & Hmap & Hall).
  rewrite Hset in Hconn.
  assert (Hd : driverCalls
                 (ok ++ [(ConsoleLog "✅ MotherDuck connection initialized", r)])%list
               = attachSequence env).
  { unfold driverCalls. rewrite map_app, filter_app, Hmap.
    cbn [map fst filter isDriverCall]. rewrite app_nil_r. apply forallb_filter_id.
    apply forallb_forall. apply Forall_forall. apply attachSequence_driver. }
  split; [|split; [exact Hd | exists ok, r; split; [reflexivity | exact Hmap]]].
  destruct g' as [db conn]. cbn in Hconn, Hdb. subst conn.
  destruct ok as [|[c0 [e0|rows0]] ok'].
  - discriminate Hmap.
  - inversion Hall as [|? ? Hx _]. discriminate Hx.
  - cbn in Hdb. subst db. reflexivity.
Qed.

(** X12. Start-up stops at the first call that throws: the calls before
    it all returned, no call to the driver follows it, the only thing
    that follows is the log of that very error, and the connection is
    left unset. *)
Theorem startup_stops_at_first_failure (env : Env) (w : W) :
  truthy (envValue (MOTHERDUCK_TOKEN env)) = true ->
  someDriverCallThrew
    (transcriptOf (run answer (initializeMotherDuckConnection env) initialGlobals w)) ->
  exists g' ok c e r w',
    run answer (initializeMotherDuckConnection env) initialGlobals w =
      (Normal tt, g',
       (ok ++ [(c, Threw e);
               (ConsoleError "Failed to initialize MotherDuck connection:" (Some e), r)])%list,
       w')
    /\ Forall (fun x => isDriverCall (fst x) = true /\ isThrew (snd x) = false) ok
    /\ map fst (ok ++ [(c, Threw e)])%list
       = firstn (S (List.length ok)) (attachSequence env)
    /\ motherDuckConnection g' = None.
Proof.
  intros Htok Hthrew.
  destruct (init_runs env w Htok) as (g' & t & w' & Hrun & Hf & Hconn & Hdb).
  rewrite Hrun in Hthrew. unfold transcriptOf in Hthrew. cbn [fst snd] in Hthrew.
  apply threwIn_spec in Hthrew.
  destruct (follows_failure _ _ (attachSequence_driver env) Hf Hthrew)
    as (ok & c & e & r & -> & Hall & Hmap & Hlen).
  exists g', ok, c, e, r, w'. split; [exact Hrun|].
  split; [exact Hall|]. split; [exact Hmap|].
  rewrite Hconn, Hthrew. reflexivity.
Qed.

(** X13. After start-up with a token, the database handle is set exactly
    when opening the in-memory database returned, whatever happened
    next: a failure of a later step leaves the database handle set and
    the connection handle unset. *)
Theorem database_handle_kept_after_failure (env : Env) (w : W) :
  truthy (envValue (MOTHERDUCK_TOKEN env)) = true ->
  exists g' t w',
    run answer (initializeMotherDuckConnection env) initialGlobals w
      = (Normal tt, g', t, w')
    /\ (motherDuckDb g' <> None <->
        exists rows rest, t = (NewDatabase ":memory:", Gave rows) :: rest)
    /\ (motherDuckConnection g' <> None -> motherDuckDb g' <> None).
Proof.
  intros Htok.
  destruct (init_runs env w Htok) as (g' & t & w' & Hrun & Hf & Hconn & Hdb).
  exists g', t, w'. split; [exact Hrun|].
  destruct t as [|[c [e|rows]] rest]; [destruct Hf| |].
  - destruct Hf as [-> _]. rewrite Hdb, Hconn. split.
    + split; [congruence|]. intros (rows & rest' & Heq). discriminate Heq.
    + cbn. intros H. congruence.
  - destruct Hf as [-> _]. rewrite Hdb. split.
    + split; [intros _; exists rows, rest; reflexivity | discriminate].
    + intros _. discriminate.
Qed.

End StartupRuns.

(** ** What the SELECT guard lets through *)

Section SelectGuard.

Variable W : Type.
Variable answer : W -> Call -> Reply * W.

Ltac all_chars c :=
  destruct c as [[] [] [] [] [] [] [] []]; vm_compute.

Lemma toLowerChar_s (c : ascii) :
  toLowerChar c = "s"%char <-> c = "s"%char \/ c = "S"%char.
Proof.
  all_chars c;
    (split; [intros H; first [discriminate H | now left | now right]
            | intros [H|H]; first [discriminate H | reflexivity]]).
Qed.

(** Lower-casing keeps white space white space. *)
Lemma toLowerChar_whiteSpace (c : ascii) :
  isWhiteSpace (toLowerChar c) = isWhiteSpace c.
Proof. all_chars c; reflexivity. Qed.

Lemma toLowerCase_append (a b : string) :
  toLowerCase (a ++ b) = toLowerCase a ++ toLowerCase b.
Proof. induction a as [|c a IH]; simpl; [reflexivity | now rewrite IH]. Qed.

Lemma trimStart_whiteSpace (pre x : string) :
  allWhiteSpace pre = true -> trimStart (pre ++ x) = trimStart x.
Proof.
  induction pre as [|c pre IH]; intros H; [reflexivity|].
  cbn [allWhiteSpace] in H. apply andb_true_iff in H as [Hc Hpre].
  cbn [append trimStart]. rewrite Hc. apply IH. exact Hpre.
Qed.

(** What [trimStart] leaves does not begin with white space. *)
Lemma trimStart_head (s : string) (c : ascii) (rest : string) :
  trimStart s = String c rest -> isWhiteSpace c = false.
Proof.
  induction s as [|a s IH]; intros H; [discriminate H|].
  cbn [trimStart] in H. destruct (isWhiteSpace a) eqn:Ha.
  - apply IH. exact H.
  - injection H as <- _. exact Ha.
Qed.

Lemma trimEnd_cons (c : ascii) (x : string) :
  isWhiteSpace c = false -> trimEnd (String c x) = String c (trimEnd x).
Proof. intros H. cbn [trimEnd]. rewrite H. reflexivity. Qed.

Lemma lowered_not_whiteSpace (c l : ascii) :
  toLowerChar c = l -> isWhiteSpace l = false -> isWhiteSpace c = false.
Proof. intros <- H. rewrite toLowerChar_whiteSpace in H. exact H. Qed.

(** A text that spells [select] in some casing, followed by anything,
    still begins with [select] once trimmed and lower-cased. *)
Lemma select_prefix_survives (k t : string) :
  toLowerCase k = "select" ->
  trimStart (k ++ t) = k ++ t
  /\ startsWith (toLowerCase (trimEnd (k ++ t))) "select" = true.
Proof.
  intros Hk.
  destruct k as [|c1 [|c2 [|c3 [|c4 [|c5 [|c6 [|c7 k]]]]]]]; try discriminate Hk.
  cbn [toLowerCase] in Hk. injection Hk as H1 H2 H3 H4 H5 H6.
  pose proof (lowered_not_whiteSpace _ _ H1 eq_refl) as W1.
  pose proof (lowered_not_whiteSpace _ _ H2 eq_refl) as W2.
  pose proof (lowered_not_whiteSpace _ _ H3 eq_refl) as W3.
  pose proof (lowered_not_whiteSpace _ _ H4 eq_refl) as W4.
  pose proof (lowered_not_whiteSpace _ _ H5 eq_refl) as W5.
  pose proof (lowered_not_whiteSpace _ _ H6 eq_refl) as W6.
  cbn [append]. split.
  - cbn [trimStart]. rewrite W1. reflexivity.
  - rewrite !trimEnd_cons by assumption.
    cbn [toLowerCase]. rewrite H1, H2, H3, H4, H5, H6.
    unfold startsWith. cbn. destruct (toLowerCase (trimEnd t)); reflexivity.
Qed.

(** X14. The guard of the query endpoint is a prefix check: a text made
    of any white space, then [select] in any casing, then anything at
    all (further statements included) passes it, and is handed to the
    driver whole and unchanged, the driver's reply going to the
    callback. *)
Theorem select_prefix_passes_the_guard
        (g : Globals) (w : W) (req : Request) (pre k t : string) :
  motherDuckConnection g <> None ->
  sqlField req = VStr (pre ++ k ++ t) ->
  allWhiteSpace pre = true ->
  toLowerCase k = "select" ->
  exists r w',
    run answer (queryHandler req) g w =
      (relayed "rows" r, g, [(ConnAll (pre ++ k ++ t), r)], w').
Proof.
  intros Hc Hs Hpre Hk.
  destruct (motherDuckConnection g) as [conn|] eqn:E; [|congruence].
  destruct (select_prefix_survives k t Hk) as [Hstart Hsel].
  assert (Hne : pre ++ k ++ t <> "").
  { destruct pre; [|discriminate]. destruct k; [discriminate Hk | discriminate]. }
  assert (Hacc : startsWith (toLowerCase (trim (pre ++ k ++ t))) "select" = true).
  { unfold trim. rewrite (trimStart_whiteSpace pre _ Hpre), Hstart. exact Hsel. }
  rewrite (query_executes W answer g w req conn _ E Hs Hne Hacc).
  eexists _, _. reflexivity.
Qed.

(** X15. With a connection configured, a non-empty [sql] text whose
    first character after leading white space is not [s] or [S] (a
    comment, a parenthesis, WITH, nothing but white space, ...) is
    answered 400 with the only-SELECT message, and the driver is not
    called. *)
Theorem other_first_character_is_rejected
        (g : Globals) (w : W) (req : Request) (s : string) :
  motherDuckConnection g <> None ->
  sqlField req = VStr s -> s <> "" ->
  match trimStart s with
  | String c _ => c <> "s"%char /\ c <> "S"%char
  | EmptyString => True
  end ->
  run answer (queryHandler req) g w =
    (Normal (statusJson 400 (VObj [("error", VStr "Only SELECT queries are allowed.")])),
     g, [], w).
Proof.
  intros Hc Hs Hne Hfirst.
  destruct (motherDuckConnection g) as [conn|] eqn:E; [|congruence].
  apply (query_not_select W answer g w req conn s E Hs Hne).
  unfold trim, startsWith.
  destruct (trimStart s) as [|c rest] eqn:Ht; [reflexivity|].
  rewrite (trimEnd_cons c rest (trimStart_head s c rest Ht)).
  cbn [toLowerCase prefix].
  destruct (ascii_dec "s" (toLowerChar c)) as [Heq|]; [|reflexivity].
  symmetry in Heq. apply toLowerChar_s in Heq. tauto.
Qed.

End SelectGuard.

(** ** The name given to USE *)

Section UseName.

Lemma replaceAll_quote_append (a b : string) :
  replaceAll (a ++ b) "'" "''" = replaceAll a "'" "''" ++ replaceAll b "'" "''".
Proof.
  induction a as [|c a IH]; [reflexivity|].
  cbn [append]. rewrite !replaceAll_quote_cons, IH, append_assoc. reflexivity.
Qed.

Lemma afterLast_append (pat p s d : string) :
  afterLast pat s = Some d -> afterLast pat (p ++ s) = Some d.
Proof.
  intros H. induction p as [|c p IH]; [exact H|].
  cbn [append afterLast]. rewrite IH. reflexivity.
Qed.

(** A text without quotes is a prefix of a quote-doubled text exactly
    when it is one of the original. *)
Lemma prefix_escaped (pat : string) :
  includes pat "'" = false ->
  forall s, prefix pat (replaceAll s "'" "''") = prefix pat s.
Proof.
  induction pat as [|a pat IH]; intros Hq s.
  - rewrite !prefix_nil. reflexivity.
  - cbn [includes prefix] in Hq. apply orb_false_iff in Hq as [Ha Hpat].
    assert (Hne : a <> "'"%char).
    { intros ->. destruct (ascii_dec "'" "'"); [|congruence].
      rewrite prefix_nil in Ha. discriminate Ha. }
    destruct s as [|c s]; [reflexivity|].
    rewrite replaceAll_quote_cons.
    destruct (Ascii.eqb_spec c "'") as [->|Hc].
    + cbn [append prefix]. destruct (ascii_dec a "'"); [contradiction | reflexivity].
    + cbn [append prefix]. destruct (ascii_dec a c); [|reflexivity].
      apply IH. exact Hpat.
Qed.

Lemma drop_escaped (pat : string) :
  includes pat "'" = false ->
  forall s, prefix pat s = true ->
       drop (String.length pat) (replaceAll s "'" "''")
       = replaceAll (drop (String.length pat) s) "'" "''".
Proof.
  induction pat as [|a pat IH]; intros Hq s Hp.
  - cbn [String.length drop]. reflexivity.
  - cbn [includes prefix] in Hq. apply orb_false_iff in Hq as [Ha Hpat].
    destruct s as [|c s]; [discriminate Hp|].
    cbn [prefix] in Hp. destruct (ascii_dec a c) as [<-|]; [|discriminate Hp].
    rewrite replaceAll_quote_cons.
    destruct (Ascii.eqb_spec a "'") as [->|Hc].
    + exfalso. destruct (ascii_dec "'" "'"); [|congruence].
      rewrite prefix_nil in Ha. discriminate Ha.
    + cbn [append String.length drop]. apply IH; assumption.
Qed.

(** Doubling the quotes commutes with taking the text after the last
    occurrence of a quote-free separator. *)
Lemma afterLast_escaped (pat : string) :
  pat <> "" -> includes pat "'" = false ->
  forall s,
    afterLast pat (replaceAll s "'" "''")
    = option_map (fun d => replaceAll d "'" "''") (afterLast pat s).
Proof.
  intros Hne Hq. induction s as [|c s IH]; [reflexivity|].
  assert (Hquote : forall x, prefix pat (String "'" x) = false).
  { intros x. destruct pat as [|a pat]; [congruence|].
    cbn [includes prefix] in Hq. apply orb_false_iff in Hq as [Ha _].
    cbn [prefix]. destruct (ascii_dec a "'") as [->|]; [|reflexivity].
    exfalso. destruct (ascii_dec "'" "'"); [|congruence].
    rewrite prefix_nil in Ha. discriminate Ha. }
  pose proof (prefix_escaped pat Hq (String c s)) as Hpre.
  pose proof (drop_escaped pat Hq (String c s)) as Hdrop.
  rewrite replaceAll_quote_cons in Hpre, Hdrop |- *.
  destruct (Ascii.eqb_spec c "'") as [->|Hc].
  - cbn [append afterLast]. rewrite !Hquote, IH.
    destruct (afterLast pat s); reflexivity.
  - cbn [append] in Hpre, Hdrop |- *. cbn [afterLast]. rewrite IH, Hpre.
    destruct (afterLast pat s); [reflexivity|].
    cbn [option_map].
    destruct (prefix pat (String c s)) eqn:Hp; [|reflexivity].
    cbn [option_map]. rewrite (Hdrop eq_refl). reflexivity.
Qed.

(** X16. The name start-up gives to USE is the quote-doubled form of the
    text after the last [md:] of the catalog identifier, or of the whole
    identifier when it holds no [md:]; for an identifier without single
    quotes it is that text itself. *)
Theorem use_name_is_escaped_text_after_md (env : Env) :
  useStatement (dbNameOf (replaceAll (identifierOf env) "'" "''"))
  = "USE " ++ replaceAll (claimedDbName (identifierOf env)) "'" "''" ++ ";"
  /\ (includes (identifierOf env) "'" = false ->
      useStatement (dbNameOf (replaceAll (identifierOf env) "'" "''"))
      = "USE " ++ claimedDbName (identifierOf env) ++ ";").
Proof.
  assert (H : dbNameOf (replaceAll (identifierOf env) "'" "''")
              = replaceAll (claimedDbName (identifierOf env)) "'" "''").
  { rewrite dbNameOf_claimed. unfold claimedDbName.
    rewrite (afterLast_escaped "md:" ltac:(discriminate) eq_refl).
    destruct (afterLast "md:" (identifierOf env)); reflexivity. }
  split.
  - unfold useStatement. rewrite H. reflexivity.
  - intros Hq. unfold useStatement.
    rewrite (replaceAll_quote_free _ Hq), dbNameOf_claimed. reflexivity.
Qed.

(** X17. When the catalog identifier ends with [md:] the name given to
    USE is empty: the statement sent is [USE ;]. *)
Theorem identifier_ending_in_md_gives_empty_name (env : Env) (p : string) :
  identifierOf env = p ++ "md:" ->
  useStatement (dbNameOf (replaceAll (identifierOf env) "'" "''")) = "USE ;"
  /\ In (ConnRun "USE ;") (attachSequence env).
Proof.
  intros Hid.
  assert (H : useStatement (dbNameOf (replaceAll (identifierOf env) "'" "''"))
              = "USE ;").
  { rewrite Hid, replaceAll_quote_append, dbNameOf_claimed.
    unfold claimedDbName.
    change (replaceAll "md:" "'" "''") with "md:".
    rewrite (afterLast_append "md:" _ "md:" "" eq_refl). reflexivity. }
  split; [exact H|].
  unfold attachSequence. rewrite H. cbn. tauto.
Qed.

End UseName.

(** ** Requests after start-up, and edge cases of the handlers *)

Section AfterStartup.

Variable handles : string -> string -> HttpRequest -> bool.
Variable decodeFails : HttpRequest -> option JsError.
Variable W : Type.
Variable answer : W -> Call -> Reply * W.

Lemma configured_never_503 (env : Env) (now : string) (uptime : Value)
      (req : HttpRequest) (g : Globals) (w : W) :
  motherDuckConnection g <> None ->
  exists c t w',
    run answer (server handles decodeFails env now uptime req) g w = (c, g, t, w')
    /\ ((exists r, c = Normal r /\ status r <> 503) \/ c = Thrown bigIntTypeError).
Proof.
  intros Hc.
  destruct (server_run handles decodeFails W answer env now uptime req g w)
    as (c & t & w1 & Hshape & Hrun).
  unfold RouteShape in Hshape.
  destruct (firstRoute handles routes req) as [[| | |e]|].
  1-3: destruct Hshape as [-> ->]; eexists _, _, _;
       (split; [exact Hrun | left; eexists; split; [reflexivity | discriminate]]).
  2: { destruct Hshape as [-> ->].
       destruct (decodeFails req) as [err|]; eexists _, _, _;
         (split; [exact Hrun | left; eexists; split; [reflexivity | discriminate]]). }
  destruct Hshape as [Hn|r Hcc He Hs|v q rows Hcc He Hv|q rows Hcc He Hv|q err Hcc He
                     |v q1 q2 q3 q4 r1 r2 r3 r4 Hcc He Hv
                     |q1 q2 q3 q4 r1 r2 r3 r4 Hcc He];
    try contradiction;
    eexists _, _, _; (split; [exact Hrun|]);
    first [ right; reflexivity
          | left; eexists; split; [reflexivity|]; cbn; try discriminate ].
  rewrite Hs. discriminate.
Qed.

Lemma serveHttp_configured (env : Env) (reqs : list (string * Value * HttpRequest))
      (g : Globals) (w : W) :
  motherDuckConnection g <> None ->
  Forall (fun x => (exists r, fst x = Normal r /\ status r <> 503)
                   \/ fst x = Thrown bigIntTypeError)
         (fst (fst (serveHttp handles decodeFails W answer env reqs g w))).
Proof.
  intros Hc. revert w. induction reqs as [|[[now uptime] req] rest IH]; intros w.
  - constructor.
  - cbn [serveHttp].
    destruct (configured_never_503 env now uptime req g w Hc)
      as (c & t & w1 & Hrun & Hs).
    rewrite Hrun. specialize (IH w1).
    destruct (serveHttp handles decodeFails W answer env rest g w1) as [[out g2] w2].
    cbn [fst] in *. constructor; [exact Hs | exact IH].
Qed.

Lemma init_configured (env : Env) (w : W) (g' : Globals) (t : Transcript) (w' : W) :
  truthy (envValue (MOTHERDUCK_TOKEN env)) = true ->
  run answer (initializeMotherDuckConnection env) initialGlobals w
    = (Normal tt, g', t, w') ->
  ~ someDriverCallThrew t ->
  motherDuckConnection g' <> None.
Proof.
  intros Htok Hrun Hno.
  destruct (init_runs W answer env w Htok) as (g1 & t1 & w1 & Hrun1 & _ & Hconn & _).
  rewrite Hrun in Hrun1. injection Hrun1 as <- <- <-.
  rewrite Hconn. rewrite <- threwIn_spec in Hno.
  destruct (threwIn t); [congruence | discriminate].
Qed.

(** X18. After a start-up with a token in which no call to the driver
    threw, no request is ever answered 503: every response to any
    sequence of requests carries another status, and a request without
    a response is one in which [res.json] threw on a BigInt. *)
Theorem connected_server_never_answers_503
        (env : Env) (w : W) (reqs : list (string * Value * HttpRequest))
        (g' : Globals) (t : Transcript) (w' : W) :
  truthy (envValue (MOTHERDUCK_TOKEN env)) = true ->
  run answer (initializeMotherDuckConnection env) initialGlobals w
    = (Normal tt, g', t, w') ->
  ~ someDriverCallThrew t ->
  Forall (fun x => (exists r, fst x = Normal r /\ status r <> 503)
                   \/ fst x = Thrown bigIntTypeError)
         (fst (fst (serveHttp handles decodeFails W answer env reqs g' w'))).
Proof.
  intros Htok Hrun Hno. apply serveHttp_configured.
  exact (init_configured env w g' t w' Htok Hrun Hno).
Qed.

(** X19. The report the diagnostics handler hands to [res.json] treats
    its two scalar fields differently: [table_count] keeps whatever the first row holds unless
    that is null or missing, so a count of zero is reported as zero,
    while [current_database] becomes null for every falsy value of the
    first row (empty text, zero, false) and when there is no row. *)
Theorem diagnostics_scalar_defaults (g : Globals) (w : W) (req : Request) :
  motherDuckConnection g <> None ->
  exists r1 r2 r3 r4 v w',
    run answer (diagnosticsHandler req) g w =
      (sendJsonResult v, g,
       [(ConnAll diagQuery1, r1); (ConnAll diagQuery2, r2);
        (ConnAll diagQuery3, r3); (ConnAll diagQuery4, r4)], w')
    /\ (forall rows x,
          r4 = Gave rows -> firstRowProp rows "table_count" = x ->
          x <> VUndefined -> x <> VNull ->
          getProp v "table_count" = x)
    /\ (forall rows,
          r4 = Gave rows ->
          firstRowProp rows "table_count" = VUndefined
          \/ firstRowProp rows "table_count" = VNull ->
          getProp v "table_count" = VNull)
    /\ (forall rows,
          r2 = Gave rows ->
          truthy (firstRowProp rows "current_database") = false ->
          getProp v "current_database" = VNull)
    /\ (forall rows,
          r2 = Gave rows ->
          truthy (firstRowProp rows "current_database") = true ->
          getProp v "current_database" = firstRowProp rows "current_database").
Proof.
  intros Hc.
  destruct (diagnostics_runs W answer g w req Hc) as (r1 & r2 & r3 & r4 & w' & Hrun).
  eexists r1, r2, r3, r4, _, w'. split; [exact Hrun|].
  repeat split.
  - intros rows x -> Hx Hu Hn.
    destruct r1, r2, r3; cbn; rewrite Hx; destruct x; first [congruence | reflexivity].
  - intros rows -> [Hx|Hx]; destruct r1, r2, r3; cbn; rewrite Hx; reflexivity.
  - intros rows -> Hx.
    destruct r1, r3, r4; cbn; unfold orJs; rewrite Hx; reflexivity.
  - intros rows -> Hx.
    destruct r1, r3, r4; cbn; unfold orJs; rewrite Hx; reflexivity.
Qed.

(** X20. With a connection configured, a body that carries no [sql]
    field is answered 400 with the missing-SQL message and the driver is
    not called: a missing body, a body that is not an object, and an
    object without the key are all handled, none makes the handler
    throw. *)
Theorem body_without_sql_is_rejected (g : Globals) (w : W) (req : Request) :
  motherDuckConnection g <> None ->
  (forall fields, body req = VObj fields -> lookup "sql" fields = VUndefined) ->
  run answer (queryHandler req) g w =
    (Normal (statusJson 400 (VObj [("error", VStr "Missing SQL in body { sql }")])),
     g, [], w).
Proof.
  intros Hc Hbody.
  destruct (motherDuckConnection g) as [conn|] eqn:E; [|congruence].
  apply (query_missing W answer g w req conn E).
  assert (Hs : sqlField req = VUndefined).
  { unfold sqlField, orJs.
    destruct (body req) as [| |b|n|s|l|fs|z] eqn:Hb; cbn;
      try reflexivity;
      try (destruct b; reflexivity);
      try (destruct (n =? 0)%Z; reflexivity);
      try (destruct (z =? 0)%Z; reflexivity);
      try (destruct (s =? ""); reflexivity).
    apply (Hbody fs eq_refl). }
  rewrite Hs. reflexivity.
Qed.

End AfterStartup.

(** ** Array-valued query parameters *)

Section ArrayParameters.



End ArrayParameters.

(** ** The further properties on sample inputs *)

Lemma requests_only_query_witness :
  transcriptOf (run scripted
     (server literalRoute samplePaths tokenEnv "now" (VNum 12) (httpGet "/nope"))
     configured [Gave okRows]) = [].
Proof.
  destruct (requests_only_query literalRoute samplePaths (list Reply) scripted tokenEnv "now"
              (VNum 12) (httpGet "/nope") configured [Gave okRows])
    as (_ & _ & Hnone & _).
  destruct Hnone as [_ Hquiet].
  - intros e. discriminate.
  - apply Hquiet. right. reflexivity.
Defined.

Lemma driver_error_gives_500_witness :
  exists r w',
    run scripted (server literalRoute samplePaths tokenEnv "now" (VNum 12) (httpGet "/api/md/ping"))
        configured [Threw sampleError] =
      (Normal {| status := 500;
                 payload := VObj [("error", VStr "Something went wrong!");
                                  ("message", VStr "Catalog Error: no such table");
                                  ("timestamp", VStr "now")] |},
       configured,
       [(ConnAll "SELECT 1 AS ok;", Threw sampleError);
        (ConsoleError "Error: Catalog Error: no such table" None, r)],
       w').
Proof.
  apply (driver_error_gives_500 literalRoute samplePaths (list Reply) scripted tokenEnv "now"
           (VNum 12) (httpGet "/api/md/ping") configured [Threw sampleError]
           "SELECT 1 AS ok;" sampleError).
  - discriminate.
  - vm_compute. left. reflexivity.
Defined.


Lemma ping_sends_constant_query_witness :
  exists c t wf,
    run scripted (server literalRoute samplePaths tokenEnv "now" (VNum 12) (httpGet "/api/md/ping"))
        configured [Gave okRows] =
      (c, configured, (ConnAll "SELECT 1 AS ok;", Gave okRows) :: t, wf)
    /\ t = []
    /\ c = Normal {| status := 200; payload := VObj [("rows", rowsValue okRows)] |}.
Proof.
  destruct (ping_sends_constant_query literalRoute samplePaths (list Reply) scripted tokenEnv "now"
              (VNum 12) (httpGet "/api/md/ping") configured [Gave okRows])
    as (c & t & wf & Hrun & _ & Hrows).
  - reflexivity.
  - discriminate.
  - exists c, t, wf. split; [exact Hrun|]. exact (Hrows okRows eq_refl).
Defined.

Lemma unmatched_request_gets_404_witness :
  run scripted (server literalRoute samplePaths tokenEnv "now" (VNum 12) (httpGet "/nope"))
      initialGlobals [] =
    (Normal {| status := 404;
               payload := VObj [("error", VStr "Route not found");
                                ("message", VStr "Cannot GET /nope");
                                ("timestamp", VStr "now")] |},
     initialGlobals, [], [])
  /\ run scripted
        (server literalRoute samplePaths tokenEnv "now" (VNum 12) (httpGet "/%E0%A4%A"))
        initialGlobals [] =
      (Normal {| status := 500;
                 payload := VObj [("error", VStr "Something went wrong!");
                                  ("message", VStr "Failed to decode param '/%E0%A4%A'");
                                  ("timestamp", VStr "now")] |},
       initialGlobals,
       [(ConsoleError "URIError: Failed to decode param '/%E0%A4%A'" None, Gave [])],
       []).
Proof.
  split.
  - apply (proj1 (unmatched_request_gets_404 literalRoute samplePaths (list Reply)
                    scripted tokenEnv "now" (VNum 12) (httpGet "/nope")
                    initialGlobals [] eq_refl)).
    reflexivity.
  - apply (proj2 (unmatched_request_gets_404 literalRoute samplePaths (list Reply)
                    scripted tokenEnv "now" (VNum 12) (httpGet "/%E0%A4%A")
                    initialGlobals [] eq_refl)
                 (uriError "/%E0%A4%A")).
    reflexivity.
Defined.

Lemma plain_routes_ignore_the_connection_witness :
  run scripted (server literalRoute samplePaths tokenEnv "now" (VNum 12) (httpGet "/api/health"))
      initialGlobals [] =
    (Normal {| status := 200;
               payload := VObj [("status", VStr "healthy");
                                ("uptime", VNum 12);
                                ("timestamp", VStr "now")] |},
     initialGlobals, [], []).
Proof.
  apply (proj2 (proj2 (plain_routes_ignore_the_connection literalRoute samplePaths (list Reply)
           scripted tokenEnv "now" (VNum 12) (httpGet "/api/health")
           initialGlobals []))).
  reflexivity.
Defined.

Lemma empty_token_is_no_token_witness :
  exists r w',
    run scripted (initializeMotherDuckConnection emptyTokenEnv) initialGlobals [] =
      (Normal tt, initialGlobals,
       [(ConsoleWarn
           "MotherDuck token not set. Set MOTHERDUCK_TOKEN to enable MotherDuck endpoints.",
         r)],
       w').
Proof.
  apply (empty_token_is_no_token (list Reply) scripted emptyTokenEnv initialGlobals []).
  reflexivity.
Defined.

Lemma default_database_is_md_default_witness :
  exists n,
    driverCalls (transcriptOf
       (run scripted (initializeMotherDuckConnection tokenEnv) initialGlobals []))
    = firstn n [NewDatabase ":memory:"; DbConnect;
                ConnRun "INSTALL motherduck;"; ConnRun "LOAD motherduck;";
                ConnRun "ATTACH 'md:default' (TOKEN 'tok');";
                ConnRun "USE default;"].
Proof.
  apply (default_database_is_md_default (list Reply) scripted tokenEnv []).
  - reflexivity.
  - left. reflexivity.
Defined.

Lemma startup_connects_iff_no_call_threw_witness :
  exists g' t w',
    run scripted (initializeMotherDuckConnection tokenEnv) initialGlobals []
      = (Normal tt, g', t, w')
    /\ g' = configured.
Proof.
  destruct (startup_connects_iff_no_call_threw (list Reply) scripted tokenEnv []
              eq_refl)
    as (g' & t & w' & Hrun & _ & Himp).
  exists g', t, w'. split; [exact Hrun|].
  apply Himp. vm_compute in Hrun. injection Hrun as <- _ _. discriminate.
Defined.

Lemma startup_stops_at_first_failure_witness :
  exists g' ok c e r w',
    run scripted (initializeMotherDuckConnection tokenEnv) initialGlobals attachFails =
      (Normal tt, g',
       (ok ++ [(c, Threw e);
               (ConsoleError "Failed to initialize MotherDuck connection:" (Some e), r)])%list,
       w')
    /\ motherDuckConnection g' = None.
Proof.
  destruct (startup_stops_at_first_failure (list Reply) scripted tokenEnv attachFails
              eq_refl)
    as (g' & ok & c & e & r & w' & Hrun & _ & _ & Hconn).
  - exists (ConnRun "ATTACH 'md:default' (TOKEN 'tok');"), sampleError.
    split; [|reflexivity]. vm_compute. tauto.
  - exists g', ok, c, e, r, w'. split; [exact Hrun | exact Hconn].
Defined.

Lemma database_handle_kept_after_failure_witness :
  exists g' t w',
    run scripted (initializeMotherDuckConnection tokenEnv) initialGlobals attachFails
      = (Normal tt, g', t, w')
    /\ motherDuckDb g' <> None.
Proof.
  destruct (database_handle_kept_after_failure (list Reply) scripted tokenEnv
              attachFails eq_refl)
    as (g' & t & w' & Hrun & Hiff & _).
  exists g', t, w'. split; [exact Hrun|].
  apply Hiff. vm_compute in Hrun. injection Hrun as _ <- _.
  eexists _, _. reflexivity.
Defined.

Lemma select_prefix_passes_the_guard_witness :
  exists r w',
    run scripted (queryHandler stackedRequest) configured [Gave okRows] =
      (relayed "rows" r, configured, [(ConnAll "  SeLeCt 1; DROP TABLE x", r)], w').
Proof.
  apply (select_prefix_passes_the_guard (list Reply) scripted configured
           [Gave okRows] stackedRequest "  " "SeLeCt" " 1; DROP TABLE x").
  - discriminate.
  - reflexivity.
  - reflexivity.
  - reflexivity.
Defined.

Lemma other_first_character_is_rejected_witness :
  run scripted (queryHandler withRequest) configured [Gave okRows] =
    (Normal (statusJson 400 (VObj [("error", VStr "Only SELECT queries are allowed.")])),
     configured, [], [Gave okRows]).
Proof.
  apply (other_first_character_is_rejected (list Reply) scripted configured
           [Gave okRows] withRequest " WITH t AS (SELECT 1) SELECT * FROM t").
  - discriminate.
  - reflexivity.
  - discriminate.
  - cbn. split; discriminate.
Defined.

Lemma use_name_is_escaped_text_after_md_witness :
  useStatement (dbNameOf (replaceAll (identifierOf tokenEnv) "'" "''"))
  = "USE " ++ claimedDbName (identifierOf tokenEnv) ++ ";".
Proof.
  apply (proj2 (use_name_is_escaped_text_after_md tokenEnv)).
  reflexivity.
Defined.

Lemma identifier_ending_in_md_gives_empty_name_witness :
  In (ConnRun "USE ;") (attachSequence bareMdEnv).
Proof.
  apply (proj2 (identifier_ending_in_md_gives_empty_name bareMdEnv "" eq_refl)).
Defined.

Lemma connected_server_never_answers_503_witness :
  Forall (fun x => (exists r, fst x = Normal r /\ status r <> 503)
                   \/ fst x = Thrown bigIntTypeError)
         (fst (fst (serveHttp literalRoute samplePaths (list Reply) scripted tokenEnv
                      [("t1", VNum 1, httpGet "/api/md/ping");
                       ("t2", VNum 2, httpPostQuery (VStr "drop table x"));
                       ("t3", VNum 3, httpGet "/nope")]
                      configured []))).
Proof.
  apply (connected_server_never_answers_503 literalRoute samplePaths (list Reply) scripted
           tokenEnv [] _ configured
           (transcriptOf (run scripted (initializeMotherDuckConnection tokenEnv)
                              initialGlobals []))
           []).
  - reflexivity.
  - reflexivity.
  - intros (c & e & Hin & _). vm_compute in Hin.
    repeat (destruct Hin as [Hin|Hin]; [discriminate Hin|]). exact Hin.
Defined.

Lemma diagnostics_scalar_defaults_witness :
  exists v,
    fst (fst (fst (run scripted (diagnosticsHandler diagnosticsRequest) configured
                       [Gave []; Gave []; Gave []; Gave countZero])))
      = sendJsonResult v
    /\ getProp v "table_count" = VNum 0
    /\ getProp v "current_database" = VNull.
Proof.
  destruct (diagnostics_scalar_defaults (list Reply) scripted configured
              [Gave []; Gave []; Gave []; Gave countZero] diagnosticsRequest)
    as (r1 & r2 & r3 & r4 & v & w' & Hrun & Hcount & _ & Hdb & _).
  - discriminate.
  - exists v. rewrite Hrun. split; [reflexivity|].
    vm_compute in Hrun. injection Hrun as _ _ <- _ <- _. split.
    + apply (Hcount countZero (VNum 0)); [reflexivity | reflexivity | discriminate | discriminate].
    + apply (Hdb []); reflexivity.
Defined.

Lemma body_without_sql_is_rejected_witness :
  run scripted (queryHandler noSqlRequest) configured [Gave okRows] =
    (Normal (statusJson 400 (VObj [("error", VStr "Missing SQL in body { sql }")])),
     configured, [], [Gave okRows]).
Proof.
  apply (body_without_sql_is_rejected (list Reply) scripted configured
           [Gave okRows] noSqlRequest).
  - discriminate.
  - intros fields H. injection H as <-. reflexivity.
Defined.

